(** * rsa_try_mahalanobis.py: the analysis script as a program over its libraries

    The script is glue code: every numerical step is a call into numpy,
    rsatoolbox, scipy, pandas, statsmodels, nibabel, the operating system or
    the helper module [rsa_functions].  The embedding keeps the script's own
    control flow, constants, string building and list/array bookkeeping, and
    represents each external call as a node of a program tree.  A run
    interprets the tree under a handler that answers every call (or raises)
    while threading the state of the outside world. *)

From Stdlib Require Import List String Ascii ZArith Lia Bool DecimalString.
Import ListNotations.
Open Scope string_scope.

Set Implicit Arguments.

(** ** Values owned by the libraries

    The script never looks inside these objects; it only passes them on.
    Each is identified by the handle the library returned. *)

Inductive ndarray := Array (h : nat).
Inductive Dataset := DatasetObj (h : nat).
Inductive RDMs := RDMsObj (h : nat).
Inductive NiftiImage := Nifti (h : nat).
Inductive AnovaResults := AnovaObj (h : nat).
Inductive FileObj := FileHandle (h : nat).
(** A Python float, as its 64-bit pattern. *)
Inductive pyfloat := Float64 (bits : N).

(** The result object of [scipy.stats.ttest_1samp]. *)
Record TtestResult := mkTtest {
  statistic : pyfloat;
  pvalue : pyfloat;
  df : Z
}.

(** [pd.DataFrame] built from a dict of three columns. *)
Record DataFrame := mkDataFrame {
  col_Subject : list Z;
  col_ROIs : list Z;
  col_Similiarity : list pyfloat
}.

(** [save_rsa_results] is handed a list of floats at one call site and a
    string at the other. *)
Inductive rsa_payload :=
  | Values (l : list pyfloat)
  | Text (s : string).

(** ** External calls *)

Inductive call : Type :=
  (* rsa_functions *)
  | FormatDataForSubject (folder_path : string) (runs selected all : list string)
  | AverageOverRuns (formatted_data : list ndarray)
  | GetVoxelsFromRegionOfInterest (region datapath : string)
  | RearrangeArray (voxels_from_region averaged_data : ndarray)
  | CreateRsaDatasets (data_from_region : ndarray) (n_subjects : nat) (key : string)
  | SaveRdmResults (resultpath region condition method : string) (matrix : ndarray) (subject : string)
  | SaveRsaResults (resultpath region condition method : string) (results : rsa_payload)
  (* rsatoolbox *)
  | SubsetObs (dataset : Dataset) (by_ : string) (value : list string)
  | CalcRdm (datasets : list Dataset) (method descriptor : string)
  | PrecFromResiduals (residuals : ndarray)
  | CalcRdmNoise (dataset : Dataset) (descriptor method : string) (noise : ndarray)
  | RdmSubset (rdm : RDMs) (by_ : string) (value : Z)
  | RdmCompare (rdm1 rdm2 : RDMs) (method : string)
  | GetMatrices (rdm : RDMs)
  (* nibabel and numpy *)
  | NibLoad (path : string)
  | GetFdata (img : NiftiImage)
  | RavelNonzero (mask data : ndarray)
  | ReshapeIndex (data indices : ndarray)
  | VstackArange (rows : ndarray)
  | NpMean (values : list pyfloat)
  | StrRound3 (x : pyfloat)
  | NpGenfromtxt (path delimiter : string)
  (* scipy, statsmodels *)
  | Ttest1samp (values : list pyfloat) (popmean : Z) (alternative : string)
  | AnovaRMFit (data : DataFrame) (depvar subject : string) (within : list string)
  (* builtins and os *)
  | Print (line : string)
  | OsPathExists (path : string)
  | OsMakedirs (path : string)
  | OsRemove (path : string)
  | OpenW (path : string)
  | FileWrite (file : FileObj) (text : string)
  | FileClose (file : FileObj).

(** What each call hands back to the script. *)
Definition resp (c : call) : Type :=
  match c with
  | FormatDataForSubject _ _ _ _ => ndarray
  | AverageOverRuns _ => ndarray
  | GetVoxelsFromRegionOfInterest _ _ => ndarray
  | RearrangeArray _ _ => ndarray
  | CreateRsaDatasets _ _ _ => list Dataset
  | SaveRdmResults _ _ _ _ _ _ => unit
  | SaveRsaResults _ _ _ _ _ => unit
  | SubsetObs _ _ _ => Dataset
  | CalcRdm _ _ _ => RDMs
  | PrecFromResiduals _ => ndarray
  | CalcRdmNoise _ _ _ _ => RDMs
  | RdmSubset _ _ _ => RDMs
  | RdmCompare _ _ _ => list (list pyfloat)
  | GetMatrices _ => list ndarray
  | NibLoad _ => NiftiImage
  | GetFdata _ => ndarray
  | RavelNonzero _ _ => ndarray
  | ReshapeIndex _ _ => ndarray
  | VstackArange _ => ndarray
  | NpMean _ => pyfloat
  | StrRound3 _ => string
  | NpGenfromtxt _ _ => list pyfloat
  | Ttest1samp _ _ _ => TtestResult
  | AnovaRMFit _ _ _ _ => AnovaResults
  | Print _ => unit
  | OsPathExists _ => bool
  | OsMakedirs _ => unit
  | OsRemove _ => unit
  | OpenW _ => FileObj
  | FileWrite _ _ => unit
  | FileClose _ => unit
  end.

(** ** Programs *)

Inductive Prog (A : Type) : Type :=
  | Ret (a : A)
  | Raise (exn : string)
  | Do (c : call) (k : resp c -> Prog A).

Arguments Raise {A} exn.

Fixpoint bind {A B} (p : Prog A) (f : A -> Prog B) : Prog B :=
  match p with
  | Ret a => f a
  | Raise e => Raise e
  | Do c k => Do c (fun x => bind (k x) f)
  end.

Definition perform (c : call) : Prog (resp c) := Do c (fun x => Ret x).

Declare Scope prog_scope.
Delimit Scope prog_scope with prog.
Notation "x <- p ;; q" := (bind p (fun x => q))
  (at level 61, p at next level, right associativity) : prog_scope.
Notation "' pat <- p ;; q" := (bind p (fun pat => q))
  (at level 61, pat pattern, p at next level, right associativity) : prog_scope.
Notation "p ;; q" := (bind p (fun _ => q))
  (at level 61, right associativity) : prog_scope.
Open Scope prog_scope.

(** A Python [for] loop over a list that collects one value per iteration. *)
Fixpoint for_each {A B} (l : list A) (body : A -> Prog B) : Prog (list B) :=
  match l with
  | [] => Ret []
  | a :: l' => b <- body a ;; bs <- for_each l' body ;; Ret (b :: bs)
  end.

(** A loop that threads an accumulator. *)
Fixpoint for_fold {A S} (l : list A) (body : S -> A -> Prog S) (s : S) : Prog S :=
  match l with
  | [] => Ret s
  | a :: l' => s' <- body s a ;; for_fold l' body s'
  end.

(** ** Running a program

    A handler answers a call in a world and gives the next world, or raises.
    A run returns how the program ended, the last world, and the calls that
    returned together with what they returned. *)

Inductive entry : Type := Entry (c : call) (r : resp c).

Inductive outcome (A : Type) : Type :=
  | Done (a : A)
  | Uncaught (exn : string).

Arguments Uncaught {A} exn.

Definition handler (W : Type) : Type := forall c : call, W -> option (resp c * W).

Fixpoint run {W A} (h : handler W) (p : Prog A) (w : W)
  : outcome A * W * list entry :=
  match p with
  | Ret a => (Done a, w, [])
  | Raise e => (Uncaught e, w, [])
  | Do c k =>
      match h c w with
      | None => (Uncaught "library", w, [])
      | Some (x, w') =>
          let '(o, w'', tr) := run h (k x) w' in (o, w'', Entry c x :: tr)
      end
  end.

(** ** Python and numpy bookkeeping done by the script itself *)

(** [os.path.join] of two components on a POSIX system. *)
Definition ends_with_slash (a : string) : bool :=
  match String.get (String.length a - 1) a with
  | Some c => Ascii.eqb c "/"%char
  | None => false
  end.

Definition path_join2 (a b : string) : string :=
  match b with
  | String c _ =>
      if Ascii.eqb c "/"%char then b
      else if (String.eqb a "" || ends_with_slash a)%bool then a ++ b
      else a ++ "/" ++ b
  | EmptyString =>
      if (String.eqb a "" || ends_with_slash a)%bool then a else a ++ "/"
  end.

Definition path_join (a : string) (rest : list string) : string :=
  fold_left path_join2 rest a.

(** [str(n)] for a non-negative integer and for an integer. *)
Definition str_nat (n : nat) : string := NilEmpty.string_of_uint (Nat.to_uint n).
Definition str_Z (z : Z) : string := NilEmpty.string_of_int (Z.to_int z).

(** [int(s)] for a string of decimal digits; anything else is a ValueError. *)
Definition digit_of (c : ascii) : option Z :=
  let n := Z.of_nat (nat_of_ascii c) in
  if ((48 <=? n) && (n <=? 57))%Z%bool then Some (n - 48)%Z else None.

Fixpoint int_of_digits_from (acc : Z) (s : string) : option Z :=
  match s with
  | EmptyString => Some acc
  | String c s' =>
      match digit_of c with
      | Some d => int_of_digits_from (10 * acc + d)%Z s'
      | None => None
      end
  end.

Definition py_int (s : string) : Prog Z :=
  match s with
  | EmptyString => Raise "ValueError"
  | _ => match int_of_digits_from 0 s with
         | Some z => Ret z
         | None => Raise "ValueError"
         end
  end.

(** [l[i]] with Python's negative indices; out of range is an IndexError. *)
Definition py_getitem {A} (l : list A) (i : Z) : Prog A :=
  let n := Z.of_nat (List.length l) in
  let j := if (i <? 0)%Z then (n + i)%Z else i in
  if ((0 <=? j) && (j <? n))%Z%bool then
    match nth_error l (Z.to_nat j) with
    | Some a => Ret a
    | None => Raise "IndexError"
    end
  else Raise "IndexError".

(** [range(a, b)] and [enumerate]. *)
Definition py_range (a b : nat) : list nat := seq a (b - a).
Definition enumerate {A} (l : list A) : list (nat * A) := combine (seq 0 (List.length l)) l.

(** [np.empty(n)] along one axis: [n] slots holding whatever was in memory. *)
Definition np_empty {A} (uninit : nat -> A) (n : nat) : list A := map uninit (seq 0 n).

(** [a[..., index] = v]: one slot along the last axis is overwritten. *)
Fixpoint set_slot {A} (index : nat) (v : A) (a : list A) : list A :=
  match a, index with
  | [], _ => []
  | _ :: a', O => v :: a'
  | x :: a', S i => x :: set_slot i v a'
  end.

(** [a[lo:hi] = v] for 1-D arrays with [hi <= len(a)]: [v] must have as many
    elements as the slice, or exactly one (broadcast); else a ValueError. *)
Definition assign_slice {A} (a : list A) (lo hi : nat) (v : list A) : Prog (list A) :=
  let width := hi - lo in
  if Nat.eqb (List.length v) width then
    Ret (firstn lo a ++ v ++ skipn hi a)%list
  else match v with
       | [x] => Ret (firstn lo a ++ repeat x width ++ skipn hi a)%list
       | _ => Raise "ValueError"
       end.

(** [np.tile(a, k)] and [np.repeat(a, k)] on 1-D arrays. *)
Definition np_tile {A} (a : list A) (k : nat) : list A := List.concat (repeat a k).
Definition np_repeat {A} (a : list A) (k : nat) : list A := flat_map (fun x => repeat x k) a.

(** ** The script *)

Module Script.

(** *** VARIABLES *)

Definition datapath : string := "/Volumes/INTENSO/data/".
Definition resultpath : string := "../analysis/".

Definition subjects : list string :=
  ["001"; "002"; "003"; "004"; "005"; "006"; "007"; "008"; "009"; "010"].

Definition all_conditions : list string :=
  ["stim_press"; "stim_flutt"; "stim_vibro"; "imag_press"; "imag_flutt"; "imag_vibro"].
Definition selected_conditions : list string :=
  ["stim_press"; "stim_flutt"; "stim_vibro"; "imag_press"; "imag_flutt"; "imag_vibro"].

Definition runs : list string := ["01"; "02"; "03"; "04"; "05"; "06"].
Definition runs_count : nat := List.length runs.

Definition regions_of_interest : list string :=
  ["rPSC_2"; "rPSC_1"; "rPSC_3b"; "rSII_TR50_right"; "rSII_TR50_left"].

(** *** DATA FORMATING (lines 47-64)

    [formatted_data] is kept as its slices along the last (subject) axis;
    [uninit] is what [np.empty] found in memory. *)

Definition format_data (uninit : nat -> ndarray) : Prog (list ndarray) :=
  for_fold (enumerate subjects)
    (fun (formatted_data : list ndarray) '(index, subject) =>
       let folder_path :=
         path_join datapath ["sub-" ++ subject; "1st_level_good_bad_Imag"] in
       block <- perform (FormatDataForSubject folder_path runs
                           selected_conditions all_conditions) ;;
       Ret (set_slot index block formatted_data))
    (np_empty uninit (List.length subjects)).

(** *** Region loop, lines 74-102: mask, datasets, condition subsets *)

Definition conditions_key : string := "conditions".

Definition stimulation_conditions : list string :=
  map (fun number => conditions_key ++ str_nat number) (py_range 1 4).
Definition imagery_conditions : list string :=
  map (fun number => conditions_key ++ str_nat number) (py_range 4 7).

Definition select_conditions (region_datasets : list Dataset)
  : Prog (list Dataset * list Dataset) :=
  for_fold region_datasets
    (fun (lists : list Dataset * list Dataset) dataset =>
       let '(stimulation_data, imagery_data) := lists in
       stimulation_sub_dataset <-
         perform (SubsetObs dataset conditions_key stimulation_conditions) ;;
       imagery_sub_dataset <-
         perform (SubsetObs dataset conditions_key imagery_conditions) ;;
       Ret ((stimulation_data ++ [stimulation_sub_dataset])%list,
            (imagery_data ++ [imagery_sub_dataset])%list))
    ([], []).

(** *** Lines 121-147: Mahalanobis RDM per subject *)

Definition residual_path (subject : string) : string :=
  path_join datapath ["sub-" ++ subject; "1st_level_good_bad_Imag"; "ResMS.nii"].

Definition mahalanobis_for_subject (voxels_from_region : ndarray)
    (stimulation_data : list Dataset) (subject : string) : Prog RDMs :=
  residuals <- perform (NibLoad (residual_path subject)) ;;
  residual_data <- perform (GetFdata residuals) ;;
  region_indices_flat <- perform (RavelNonzero voxels_from_region residual_data) ;;
  subject_residuals <- perform (ReshapeIndex residual_data region_indices_flat) ;;
  subject_residuals <- perform (VstackArange subject_residuals) ;;
  noise_pres_res <- perform (PrecFromResiduals subject_residuals) ;;
  n <- py_int subject ;;
  dataset <- py_getitem stimulation_data (n - 1)%Z ;;
  perform (CalcRdmNoise dataset "conditions" "mahalanobis" noise_pres_res).

Definition mahalanobis_block (voxels_from_region : ndarray)
    (stimulation_data : list Dataset) : Prog (list RDMs) :=
  for_fold subjects
    (fun (stimulation_RDMs_mahalanobis_all_subjects : list RDMs) subject =>
       stimulation_RDM_mahalanobis <-
         mahalanobis_for_subject voxels_from_region stimulation_data subject ;;
       Ret (stimulation_RDMs_mahalanobis_all_subjects
              ++ [stimulation_RDM_mahalanobis])%list)
    [].

(** *** Lines 155-166: similarity of the two RDMs, per subject *)

Definition method : string := "corr".

Definition similiarity_for_subject (stimulation_RDM_euclidean imagery_RDM_euclidean : RDMs)
    (subject : string) : Prog pyfloat :=
  n1 <- py_int subject ;;
  stim <- perform (RdmSubset stimulation_RDM_euclidean "subjects" n1) ;;
  n2 <- py_int subject ;;
  imag <- perform (RdmSubset imagery_RDM_euclidean "subjects" n2) ;;
  similiarity <- perform (RdmCompare stim imag method) ;;
  row <- py_getitem similiarity 0%Z ;;
  py_getitem row 0%Z.

Definition compare_rdms (stimulation_RDM_euclidean imagery_RDM_euclidean : RDMs)
  : Prog (list pyfloat) :=
  for_fold subjects
    (fun (similiarities : list pyfloat) subject =>
       v <- similiarity_for_subject stimulation_RDM_euclidean
              imagery_RDM_euclidean subject ;;
       Ret (similiarities ++ [v])%list)
    [].

(** *** Lines 175-186: one-sample t-test and its report *)

Definition test_significance (region : string) (similiarities : list pyfloat)
  : Prog string :=
  significance <- perform (Ttest1samp similiarities 0%Z "greater") ;;
  mean_s <- (m <- perform (NpMean similiarities) ;; perform (StrRound3 m)) ;;
  stat_s <- perform (StrRound3 (statistic significance)) ;;
  p_s <- perform (StrRound3 (pvalue significance)) ;;
  let significance_report :=
    method ++ " = " ++ mean_s ++ " (T = " ++ stat_s ++ ", p = " ++ p_s
      ++ ", df = " ++ str_Z (df significance) ++ ")" in
  perform (Print ("The average similarity of stimulation and imagery RDMs across "
                    ++ str_nat (List.length subjects) ++ " subjects in " ++ region
                    ++ " is: " ++ significance_report)) ;;
  Ret significance_report.

(** *** Lines 188-197: saving *)

Definition matrix_of (rdm : RDMs) (subject : string) : Prog ndarray :=
  matrices <- perform (GetMatrices rdm) ;;
  n <- py_int subject ;;
  py_getitem matrices (n - 1)%Z.

Definition save_rdms (region : string)
    (stimulation_RDM_euclidean imagery_RDM_euclidean all_RDM_euclidean : RDMs)
  : Prog unit :=
  for_fold subjects
    (fun (_ : unit) subject =>
       m <- matrix_of stimulation_RDM_euclidean subject ;;
       perform (SaveRdmResults resultpath region "stimulation" "euclidean" m subject) ;;
       m <- matrix_of imagery_RDM_euclidean subject ;;
       perform (SaveRdmResults resultpath region "imagery" "euclidean" m subject) ;;
       m <- matrix_of all_RDM_euclidean subject ;;
       perform (SaveRdmResults resultpath region "all" "euclidean" m subject))
    tt.

Definition save_rsa (region : string) (similiarities : list pyfloat)
    (significance_report : string) : Prog unit :=
  perform (SaveRsaResults resultpath region "stim_imag" method (Values similiarities)) ;;
  perform (SaveRsaResults resultpath region "stim_imag" "ttest" (Text significance_report)).

(** *** One iteration of the region loop (lines 73-197)

    [with_mahalanobis] selects the script as written ([true]) or the script
    with lines 121-147 taken out ([false]). *)

Record rdm_lists := mkLists {
  stimulation_RDMs_euclidean_all_regions : list RDMs;
  imagery_RDMs_euclidean_all_regions : list RDMs;
  all_RDMs_euclidean_all_regions : list RDMs
}.

Definition region_body (with_mahalanobis : bool) (averaged_data : ndarray)
    (acc : rdm_lists) (region : string) : Prog rdm_lists :=
  voxels_from_region <- perform (GetVoxelsFromRegionOfInterest region datapath) ;;
  data_from_region <- perform (RearrangeArray voxels_from_region averaged_data) ;;
  region_datasets <-
    perform (CreateRsaDatasets data_from_region (List.length subjects) conditions_key) ;;
  '(stimulation_data, imagery_data) <- select_conditions region_datasets ;;
  stimulation_RDM_euclidean <-
    perform (CalcRdm stimulation_data "euclidean" conditions_key) ;;
  imagery_RDM_euclidean <-
    perform (CalcRdm imagery_data "euclidean" conditions_key) ;;
  all_RDM_euclidean <-
    perform (CalcRdm region_datasets "euclidean" conditions_key) ;;
  let acc' :=
    mkLists
      (stimulation_RDMs_euclidean_all_regions acc ++ [stimulation_RDM_euclidean])
      (imagery_RDMs_euclidean_all_regions acc ++ [imagery_RDM_euclidean])
      (all_RDMs_euclidean_all_regions acc ++ [all_RDM_euclidean]) in
  (if with_mahalanobis
   then mahalanobis_block voxels_from_region stimulation_data ;; Ret tt
   else Ret tt) ;;
  similiarities <- compare_rdms stimulation_RDM_euclidean imagery_RDM_euclidean ;;
  significance_report <- test_significance region similiarities ;;
  save_rdms region stimulation_RDM_euclidean imagery_RDM_euclidean all_RDM_euclidean ;;
  save_rsa region similiarities significance_report ;;
  Ret acc'.

(** *** Lines 199-231: ANOVA over the regions *)

Definition rsa_corr_path (region : string) : string :=
  path_join resultpath [region; "rsa"; "stim_imag_rsa_corr.txt"].

Definition read_similiarities (uninit : nat -> pyfloat) : Prog (list pyfloat) :=
  let n := List.length subjects in
  for_fold (enumerate regions_of_interest)
    (fun (all_similiarity_values : list pyfloat) '(index, region) =>
       region_similiarity_values <-
         perform (NpGenfromtxt (rsa_corr_path region) ",") ;;
       assign_slice all_similiarity_values (index * n) (index * n + n)
         (removelast region_similiarity_values))
    (np_empty uninit (List.length subjects * List.length regions_of_interest)).

Definition anova_report : string := "F(4,36) = 0.458, p = 0.766".

Definition anova_sentence : string :=
  "Repeated-measures analysis of variance (ANOVA) did not show any significant differences in similiarity measures between regions of interest "
    ++ anova_report ++ ".".

Definition anova_filename : string :=
  path_join (path_join resultpath ["anova"]) ["similiarities_anova.txt"].

Definition anova_section (uninit : nat -> pyfloat) : Prog unit :=
  all_similiarity_values <- read_similiarities uninit ;;
  let similiarity_data :=
    mkDataFrame (np_tile (map Z.of_nat (py_range 1 11)) 5)
                (np_repeat [1; 2; 3; 4; 5]%Z 10)
                all_similiarity_values in
  anova_results <-
    perform (AnovaRMFit similiarity_data "Similiarity" "Subject" ["ROIs"]) ;;
  perform (Print anova_sentence) ;;
  let rsa_path := path_join resultpath ["anova"] in
  e <- perform (OsPathExists rsa_path) ;;
  (if Bool.eqb e false then perform (OsMakedirs rsa_path) else Ret tt) ;;
  let filename := path_join rsa_path ["similiarities_anova.txt"] in
  e <- perform (OsPathExists filename) ;;
  (if Bool.eqb e true then perform (OsRemove filename) else Ret tt) ;;
  file <- perform (OpenW filename) ;;
  perform (FileWrite file anova_report) ;;
  perform (FileClose file).

(** *** The whole script *)

Definition pipeline (with_mahalanobis : bool)
    (uninit_data : nat -> ndarray) (uninit_sim : nat -> pyfloat) : Prog unit :=
  formatted_data <- format_data uninit_data ;;
  averaged_data <- perform (AverageOverRuns formatted_data) ;;
  for_fold regions_of_interest (region_body with_mahalanobis averaged_data)
    (mkLists [] [] []) ;;
  anova_section uninit_sim.

Definition script := pipeline true.
Definition script_without_mahalanobis := pipeline false.

End Script.

(** ** Observing runs *)

Definition outcome_of {W A} (h : handler W) (p : Prog A) (w : W) : outcome A :=
  fst (fst (run h p w)).
Definition world_of {W A} (h : handler W) (p : Prog A) (w : W) : W :=
  snd (fst (run h p w)).
Definition trace_of {W A} (h : handler W) (p : Prog A) (w : W) : list entry :=
  snd (run h p w).

(** *** A summary of the calls made so far, and what may be required of the
    next call

    [step] folds the returned calls into a summary; [ok] is what a call must
    satisfy given the summary of everything before it; [asm] is what is
    assumed of an answer.  [wp] walks the program tree through every possible
    answer. *)

Section Summary.
Variable S : Type.
Variable step : S -> entry -> S.
Variable ok : S -> call -> Prop.
Variable asm : S -> entry -> Prop.

Fixpoint wp {A} (p : Prog A) (s : S) (post : S -> A -> Prop) : Prop :=
  match p with
  | Ret a => post s a
  | Raise _ => True
  | Do c k => ok s c /\ forall x, asm s (Entry c x) -> wp (k x) (step s (Entry c x)) post
  end.

(** The summary after a trace. *)
Definition summary (s : S) (tr : list entry) : S := fold_left step tr s.

(** Every answer in the trace is as assumed. *)
Fixpoint assumed (s : S) (tr : list entry) : Prop :=
  match tr with
  | [] => True
  | e :: tr' => asm s e /\ assumed (step s e) tr'
  end.

(** Every call in the trace met its requirement when it was made. *)
Definition at_every_call (s : S) (tr : list entry) : Prop :=
  forall hist c x rest,
    tr = (hist ++ Entry c x :: rest)%list -> ok (summary s hist) c.
End Summary.

(** *** Calls a program can make at all *)

Fixpoint all_calls {A} (q : call -> bool) (p : Prog A) : Prop :=
  match p with
  | Ret _ => True
  | Raise _ => True
  | Do c k => q c = true /\ forall x, all_calls q (k x)
  end.

(** *** Two programs that make the same calls

    [same_calls R p q]: [p] and [q] make the same calls whatever the answers,
    raise the same exceptions, and end in [R]-related results. *)

Inductive same_calls {A B} (R : A -> B -> Prop) : Prog A -> Prog B -> Prop :=
  | same_ret a b : R a b -> same_calls R (Ret a) (Ret b)
  | same_raise e : same_calls R (Raise e) (Raise e)
  | same_do c k k' :
      (forall x, same_calls R (k x) (k' x)) -> same_calls R (Do c k) (Do c k').

(** Two runs ended alike. *)
Definition same_end {A B} (R : A -> B -> Prop) (o1 : outcome A) (o2 : outcome B) : Prop :=
  match o1, o2 with
  | Done a, Done b => R a b
  | Uncaught e1, Uncaught e2 => e1 = e2
  | _, _ => False
  end.

(** The libraries do not tell two [R]-related worlds apart. *)
Definition answers_alike {W} (h : handler W) (R : W -> W -> Prop) : Prop :=
  forall c w1 w2, R w1 w2 ->
    match h c w1, h c w2 with
    | Some (x1, w1'), Some (x2, w2') => x1 = x2 /\ R w1' w2'
    | None, None => True
    | _, _ => False
    end.

(** *** Taking calls out of a program

    [drops skip p q]: [q] is [p] with some calls of the class [skip] taken
    out (together with the exceptions the script raises on the way). *)

Definition call_of (e : entry) : call := match e with Entry c _ => c end.

Inductive drops (skip : call -> bool) {A} : Prog A -> Prog A -> Prop :=
  | drops_ret a : drops skip (Ret a) (Ret a)
  | drops_raise e q : drops skip (Raise e) q
  | drops_do c k k' :
      skip c = false -> (forall x, drops skip (k x) (k' x)) ->
      drops skip (Do c k) (Do c k')
  | drops_skip c k q :
      skip c = true -> (forall x, drops skip (k x) q) -> drops skip (Do c k) q.

(** The calls of lines 121-147. *)
Definition is_mahalanobis_call (c : call) : bool :=
  match c with
  | NibLoad _ | GetFdata _ | RavelNonzero _ _ | ReshapeIndex _ _
  | VstackArange _ | PrecFromResiduals _ | CalcRdmNoise _ _ _ _ => true
  | _ => false
  end.

Definition not_mahalanobis_call (c : call) : bool := negb (is_mahalanobis_call c).

(** Calls of the class [skip] only read: they leave the world as it was. *)
Definition only_reads {W} (h : handler W) (skip : call -> bool) : Prop :=
  forall c w x w', skip c = true -> h c w = Some (x, w') -> w' = w.

(** The data frames handed to [AnovaRM(...).fit()] in a run, and the objects
    it returned. *)
Definition anova_frames (tr : list entry) : list DataFrame :=
  flat_map (fun e => match e with
                     | Entry (AnovaRMFit d _ _ _) _ => [d]
                     | _ => []
                     end) tr.

Definition anova_fits (tr : list entry) : list AnovaResults :=
  flat_map (fun e => match e with
                     | Entry (AnovaRMFit _ _ _ _) r => [r]
                     | _ => []
                     end) tr.

(** ** How far the pipeline has come (order of the steps)

    The summary counts the steps taken: subjects loaded, runs averaged, and,
    for the region whose mask was fetched last, whether the data was reduced
    to that region, how many RDMs were computed, how many comparisons were
    made and whether the t-test was run. *)

Module Order.

Record progress := mkProgress {
  loaded : nat;
  averaged : bool;
  region : option string;
  reduced : bool;
  rdms : nat;
  compared : nat;
  tested : bool
}.

Definition start : progress := mkProgress 0 false None false 0 0 false.

Definition step (s : progress) (e : entry) : progress :=
  match e with
  | Entry (FormatDataForSubject _ _ _ _) _ =>
      mkProgress (S (loaded s)) (averaged s) (region s) (reduced s) (rdms s)
                 (compared s) (tested s)
  | Entry (AverageOverRuns _) _ =>
      mkProgress (loaded s) true (region s) (reduced s) (rdms s) (compared s) (tested s)
  | Entry (GetVoxelsFromRegionOfInterest r _) _ =>
      mkProgress (loaded s) (averaged s) (Some r) false 0 0 false
  | Entry (RearrangeArray _ _) _ =>
      mkProgress (loaded s) (averaged s) (region s) true (rdms s) (compared s) (tested s)
  | Entry (CalcRdm _ _ _) _ =>
      mkProgress (loaded s) (averaged s) (region s) (reduced s) (S (rdms s))
                 (compared s) (tested s)
  | Entry (RdmCompare _ _ _) _ =>
      mkProgress (loaded s) (averaged s) (region s) (reduced s) (rdms s)
                 (S (compared s)) (tested s)
  | Entry (Ttest1samp _ _ _) _ =>
      mkProgress (loaded s) (averaged s) (region s) (reduced s) (rdms s)
                 (compared s) true
  | _ => s
  end.

(** What must already have happened when a call is made. *)
Definition ok (s : progress) (c : call) : Prop :=
  match c with
  | AverageOverRuns _ => loaded s = List.length Script.subjects
  | GetVoxelsFromRegionOfInterest _ _ =>
      loaded s = List.length Script.subjects /\ averaged s = true
  | RearrangeArray _ _ => averaged s = true /\ region s <> None
  | CalcRdm _ _ _ =>
      loaded s = List.length Script.subjects /\ averaged s = true /\ reduced s = true
  | RdmCompare _ _ _ =>
      loaded s = List.length Script.subjects /\ averaged s = true /\
      reduced s = true /\ rdms s = 3
  | Ttest1samp _ _ _ =>
      rdms s = 3 /\ compared s = List.length Script.subjects
  | SaveRdmResults _ r _ _ _ _ | SaveRsaResults _ r _ _ _ =>
      region s = Some r /\ rdms s = 3 /\
      compared s = List.length Script.subjects /\ tested s = true
  | _ => True
  end.

Definition no_assumption (_ : progress) (_ : entry) : Prop := True.

(** The calls that save a region's results. *)
Definition saves_for (region : string) (c : call) : bool :=
  match c with
  | GetMatrices _ => true
  | SaveRdmResults _ r _ _ _ _ | SaveRsaResults _ r _ _ _ => String.eqb r region
  | _ => false
  end.

End Order.

(** ** What flows between the calls of one region

    The summary keeps, for the region whose mask was fetched last, the
    objects the libraries returned, so that the arguments of a later call
    can be traced to the calls they come from. *)

Module Flow.

Record flow := mkFlow {
  regions : list string;          (* regions started so far, in order *)
  mask : option ndarray;          (* voxels_from_region *)
  datasets : list Dataset;        (* region_datasets *)
  stim_data : list Dataset;       (* answers to subset_obs with conditions 1-3 *)
  imag_data : list Dataset;       (* answers to subset_obs with conditions 4-6 *)
  rdms : list RDMs;               (* answers to the euclidean calc_rdm calls *)
  chain : list entry;             (* calls since the last nib.load *)
  mahalanobis : nat;              (* Mahalanobis RDMs computed in this region *)
  mahalanobis_total : nat;        (* ... and in the whole run *)
  subsets : list (RDMs * string * Z * RDMs);  (* RDM subsets since the last compare *)
  sims : list pyfloat             (* similiarity[0][0] of each compare *)
}.

Definition start : flow := mkFlow [] None [] [] [] [] [] 0 0 [] [].

Definition same_values (v w : list string) : bool :=
  if list_eq_dec string_dec v w then true else false.

Definition corner (m : list (list pyfloat)) : list pyfloat :=
  match m with
  | (v :: _) :: _ => [v]
  | _ => []
  end.

Definition step (s : flow) (e : entry) : flow :=
  match e with
  | Entry (GetVoxelsFromRegionOfInterest r _) m =>
      mkFlow (regions s ++ [r]) (Some m) [] [] [] [] [] 0 (mahalanobis_total s) [] []
  | Entry (CreateRsaDatasets _ _ _) d =>
      mkFlow (regions s) (mask s) d (stim_data s) (imag_data s) (rdms s) (chain s)
             (mahalanobis s) (mahalanobis_total s) (subsets s) (sims s)
  | Entry (SubsetObs _ _ value) d =>
      if same_values value Script.stimulation_conditions then
        mkFlow (regions s) (mask s) (datasets s) (stim_data s ++ [d]) (imag_data s)
               (rdms s) (chain s) (mahalanobis s) (mahalanobis_total s) (subsets s) (sims s)
      else if same_values value Script.imagery_conditions then
        mkFlow (regions s) (mask s) (datasets s) (stim_data s) (imag_data s ++ [d])
               (rdms s) (chain s) (mahalanobis s) (mahalanobis_total s) (subsets s) (sims s)
      else s
  | Entry (CalcRdm _ _ _) r =>
      mkFlow (regions s) (mask s) (datasets s) (stim_data s) (imag_data s)
             (rdms s ++ [r]) (chain s) (mahalanobis s) (mahalanobis_total s)
             (subsets s) (sims s)
  | Entry (NibLoad _) _ =>
      mkFlow (regions s) (mask s) (datasets s) (stim_data s) (imag_data s) (rdms s)
             [e] (mahalanobis s) (mahalanobis_total s) (subsets s) (sims s)
  | Entry (GetFdata _) _ | Entry (RavelNonzero _ _) _ | Entry (ReshapeIndex _ _) _
  | Entry (VstackArange _) _ | Entry (PrecFromResiduals _) _ =>
      mkFlow (regions s) (mask s) (datasets s) (stim_data s) (imag_data s) (rdms s)
             (chain s ++ [e]) (mahalanobis s) (mahalanobis_total s) (subsets s) (sims s)
  | Entry (CalcRdmNoise _ _ _ _) _ =>
      mkFlow (regions s) (mask s) (datasets s) (stim_data s) (imag_data s) (rdms s)
             [] (S (mahalanobis s)) (S (mahalanobis_total s)) (subsets s) (sims s)
  | Entry (RdmSubset rdm by_ value) r =>
      mkFlow (regions s) (mask s) (datasets s) (stim_data s) (imag_data s) (rdms s)
             (chain s) (mahalanobis s) (mahalanobis_total s)
             (subsets s ++ [(rdm, by_, value, r)]) (sims s)
  | Entry (RdmCompare _ _ _) m =>
      mkFlow (regions s) (mask s) (datasets s) (stim_data s) (imag_data s) (rdms s)
             (chain s) (mahalanobis s) (mahalanobis_total s) [] (sims s ++ corner m)
  | _ => s
  end.

(** Five regions; conditions 1-3 against conditions 4-6 in each. *)
Definition regions_ok (s : flow) (c : call) : Prop :=
  match c with
  | GetVoxelsFromRegionOfInterest r _ =>
      nth_error Script.regions_of_interest (List.length (regions s)) = Some r
  | SubsetObs ds by_ value =>
      by_ = "conditions" /\
      ((value = ["conditions1"; "conditions2"; "conditions3"] /\
        nth_error (datasets s) (List.length (stim_data s)) = Some ds) \/
       (value = ["conditions4"; "conditions5"; "conditions6"] /\
        nth_error (datasets s) (List.length (imag_data s)) = Some ds))
  | CalcRdm dss m d =>
      m = "euclidean" /\ d = "conditions" /\
      List.length (stim_data s) = List.length (datasets s) /\
      List.length (imag_data s) = List.length (datasets s) /\
      match List.length (rdms s) with
      | 0 => dss = stim_data s
      | 1 => dss = imag_data s
      | _ => dss = datasets s
      end
  | RdmCompare r1 r2 _ =>
      exists stim imag all k,
        rdms s = [stim; imag; all] /\
        subsets s = [(stim, "subjects", k, r1); (imag, "subjects", k, r2)]
  | _ => True
  end.

(** Per-subject correlation, then a one-sample t-test of the ten values. *)
Definition compare_ok (s : flow) (c : call) : Prop :=
  match c with
  | RdmCompare r1 r2 m =>
      m = "corr" /\
      exists stim imag all subject k,
        rdms s = [stim; imag; all] /\
        nth_error Script.subjects (List.length (sims s)) = Some subject /\
        py_int subject = Ret k /\
        subsets s = [(stim, "subjects", k, r1); (imag, "subjects", k, r2)]
  | Ttest1samp values popmean alternative =>
      popmean = 0%Z /\ alternative = "greater" /\
      values = sims s /\ List.length values = 10
  | _ => True
  end.

(** The Mahalanobis RDM of a subject and where its noise matrix comes from. *)
Definition mahalanobis_ok (s : flow) (c : call) : Prop :=
  match c with
  | CalcRdmNoise ds descriptor m noise =>
      descriptor = "conditions" /\ m = "mahalanobis" /\
      exists subject region_mask img data indices rows stacked,
        nth_error Script.subjects (mahalanobis s) = Some subject /\
        mask s = Some region_mask /\
        nth_error (stim_data s) (mahalanobis s) = Some ds /\
        chain s =
          [Entry (NibLoad (Script.residual_path subject)) img;
           Entry (GetFdata img) data;
           Entry (RavelNonzero region_mask data) indices;
           Entry (ReshapeIndex data indices) rows;
           Entry (VstackArange rows) stacked;
           Entry (PrecFromResiduals stacked) noise]
  | _ => True
  end.

(** The values saved for a region are its ten similarities. *)
Definition save_ok (s : flow) (c : call) : Prop :=
  match c with
  | SaveRsaResults rp r condition m (Values v) =>
      rp = Script.resultpath /\ condition = "stim_imag" /\ m = "corr" /\
      nth_error Script.regions_of_interest (List.length (regions s) - 1) = Some r /\
      v = sims s /\ List.length v = 10
  | _ => True
  end.

Definition ok (s : flow) (c : call) : Prop :=
  regions_ok s c /\ compare_ok s c /\ mahalanobis_ok s c /\ save_ok s c.

Definition no_assumption (_ : flow) (_ : entry) : Prop := True.

(** The summary of a trace. *)
Definition after (tr : list entry) : flow := summary step start tr.

End Flow.

(** ** Similarity values saved per region and read back for the ANOVA *)

Module Store.

Record store := mkStore {
  saved : list (string * list pyfloat);   (* region, values given to save_rsa_results *)
  reads : list (string * list pyfloat)    (* path, values parsed by np.genfromtxt *)
}.

Definition start : store := mkStore [] [].

Definition step (s : store) (e : entry) : store :=
  match e with
  | Entry (SaveRsaResults _ r _ m (Values v)) _ =>
      if String.eqb m "corr" then mkStore (saved s ++ [(r, v)]) (reads s) else s
  | Entry (NpGenfromtxt path _) parsed => mkStore (saved s) (reads s ++ [(path, parsed)])
  | _ => s
  end.

Definition float_eqb (a b : pyfloat) : bool :=
  match a, b with Float64 x, Float64 y => N.eqb x y end.

Fixpoint floats_eqb (a b : list pyfloat) : bool :=
  match a, b with
  | [], [] => true
  | x :: a', y :: b' => float_eqb x y && floats_eqb a' b'
  | _, _ => false
  end.

Definition is_empty {A} (l : list A) : bool :=
  match l with [] => true | _ => false end.

(** Exact round trip through the text file: what [np.genfromtxt] parses from
    a region's stim_imag_rsa_corr.txt is what was saved for that region,
    followed by one more element. *)
Definition roundtrip_b (s : store) (e : entry) : bool :=
  match e with
  | Entry (NpGenfromtxt path _) parsed =>
      forallb (fun sv : string * list pyfloat =>
                 if String.eqb path (Script.rsa_corr_path (fst sv))
                 then floats_eqb (removelast parsed) (snd sv) && negb (is_empty parsed)
                 else true)
              (saved s)
  | _ => true
  end.

Definition roundtrip (s : store) (e : entry) : Prop := roundtrip_b s e = true.

(** The same check along a whole trace. *)
Fixpoint roundtrips (s : store) (tr : list entry) : bool :=
  match tr with
  | [] => true
  | e :: tr' => roundtrip_b s e && roundtrips (step s e) tr'
  end.

Definition ok (s : store) (c : call) : Prop :=
  match c with
  | NpGenfromtxt path delimiter =>
      delimiter = "," /\
      exists region,
        nth_error Script.regions_of_interest (List.length (reads s)) = Some region /\
        path = Script.rsa_corr_path region /\
        In region (map fst (saved s))
  | AnovaRMFit data depvar subject within =>
      depvar = "Similiarity" /\ subject = "Subject" /\ within = ["ROIs"] /\
      map fst (saved s) = Script.regions_of_interest /\
      map fst (reads s) = map Script.rsa_corr_path Script.regions_of_interest /\
      Forall (fun sv => List.length (snd sv) = 10) (saved s) /\
      col_Similiarity data =
        List.concat (map (fun rd => removelast (snd rd)) (reads s)) /\
      map (fun rd => removelast (snd rd)) (reads s) = map snd (saved s)
  | _ => True
  end.

Definition after (tr : list entry) : store := summary step start tr.

End Store.

(** ** A stand-in for the libraries

    A small executable handler: objects are numbered as they are created,
    [save_rsa_results] keeps the values it is given under the file name it
    writes, and [np.genfromtxt] gives them back followed by the [nan] that
    the trailing delimiter parses to.  [residuals_present] says whether the
    ResMS.nii files exist. *)

Module Model.

Record world := mkWorld {
  next : nat;
  store : list (string * list pyfloat);
  residuals_present : bool
}.

Definition fresh (w : world) : world :=
  mkWorld (S (next w)) (store w) (residuals_present w).

Definition nan : pyfloat := Float64 9221120237041090560%N.

Fixpoint lookup (path : string) (st : list (string * list pyfloat))
  : option (list pyfloat) :=
  match st with
  | [] => None
  | (p, v) :: st' => if String.eqb p path then Some v else lookup path st'
  end.

Definition rsa_file (resultpath region condition method : string) : string :=
  path_join resultpath [region; "rsa"; condition ++ "_rsa_" ++ method ++ ".txt"].

(** Objects computed from others are numbered after what they come from. *)
Fixpoint code (s : string) : nat :=
  match s with
  | EmptyString => 0
  | String c s' => nat_of_ascii c + code s'
  end.

Definition array_handle (a : ndarray) : nat := match a with Array x => x end.
Definition dataset_handle (d : Dataset) : nat := match d with DatasetObj x => x end.
Definition nifti_handle (i : NiftiImage) : nat := match i with Nifti x => x end.

Definition derived (a b : ndarray) (k : nat) : ndarray :=
  Array (array_handle a + array_handle b + k).

Definition float_of_handles (a b : RDMs) : pyfloat :=
  match a, b with RDMsObj x, RDMsObj y => Float64 (N.of_nat (x + y)) end.

Definition lib : handler world := fun c w =>
  match c as c0 return option (resp c0 * world) with
  | FormatDataForSubject _ _ _ _ => Some (Array (next w), fresh w)
  | AverageOverRuns _ => Some (Array (next w), fresh w)
  | GetVoxelsFromRegionOfInterest _ _ => Some (Array (next w), fresh w)
  | RearrangeArray _ _ => Some (Array (next w), fresh w)
  | CreateRsaDatasets _ n _ =>
      Some (map (fun i => DatasetObj (next w + i)) (seq 0 n),
            mkWorld (next w + n) (store w) (residuals_present w))
  | SaveRdmResults _ _ _ _ _ _ => Some (tt, w)
  | SaveRsaResults rp region cond m (Values v) =>
      Some (tt, mkWorld (next w) ((rsa_file rp region cond m, v) :: store w)
                  (residuals_present w))
  | SaveRsaResults _ _ _ _ (Text _) => Some (tt, w)
  | SubsetObs _ _ _ => Some (DatasetObj (next w), fresh w)
  | CalcRdm _ _ _ => Some (RDMsObj (next w), fresh w)
  | PrecFromResiduals r => Some (derived r r 3, w)
  | CalcRdmNoise d _ _ noise =>
      Some (RDMsObj (dataset_handle d + array_handle noise), w)
  | RdmSubset _ _ _ => Some (RDMsObj (next w), fresh w)
  | RdmCompare a b _ => Some ([[float_of_handles a b]], w)
  | GetMatrices _ =>
      Some (map (fun i => Array (next w + i)) (seq 0 10), w)
  | NibLoad path =>
      if residuals_present w then Some (Nifti (code path mod 97), w) else None
  | GetFdata img => Some (Array (S (nifti_handle img)), w)
  | RavelNonzero m d => Some (derived m d 0, w)
  | ReshapeIndex d i => Some (derived d i 1, w)
  | VstackArange r => Some (derived r r 2, w)
  | NpMean v => Some (hd nan v, w)
  | StrRound3 _ => Some ("0.5", w)
  | NpGenfromtxt path _ =>
      match lookup path (store w) with
      | Some v => Some ((v ++ [nan])%list, w)
      | None => None
      end
  | Ttest1samp v _ _ =>
      Some (mkTtest (hd nan v) (hd nan v) (Z.of_nat (List.length v) - 1), w)
  | AnovaRMFit _ _ _ _ => Some (AnovaObj (next w), w)
  | Print _ => Some (tt, w)
  | OsPathExists _ => Some (false, w)
  | OsMakedirs _ => Some (tt, w)
  | OsRemove _ => Some (tt, w)
  | OpenW _ => Some (FileHandle (next w), w)
  | FileWrite _ _ => Some (tt, w)
  | FileClose _ => Some (tt, w)
  end.

Definition world0 : world := mkWorld 0 [] true.
Definition world_without_residuals : world := mkWorld 0 [] false.

Definition uninit_data (i : nat) : ndarray := Array (1000 + i).
Definition uninit_sim (i : nat) : pyfloat := Float64 (N.of_nat i).

End Model.

(** ** What a run printed and wrote through [open]/[write] *)

Module IO.

Definition file_eqb (f g : FileObj) : bool :=
  match f, g with FileHandle a, FileHandle b => Nat.eqb a b end.

Fixpoint path_of (f : FileObj) (opened : list (FileObj * string)) : option string :=
  match opened with
  | [] => None
  | (g, p) :: rest => if file_eqb f g then Some p else path_of f rest
  end.

Record seen := mkSeen {
  printed : list string;
  opened : list (FileObj * string);
  written : list (option string * string)
}.

Definition nothing : seen := mkSeen [] [] [].

Definition step (s : seen) (e : entry) : seen :=
  match e with
  | Entry (Print line) _ => mkSeen (printed s ++ [line]) (opened s) (written s)
  | Entry (OpenW path) f => mkSeen (printed s) ((f, path) :: opened s) (written s)
  | Entry (FileWrite f text) _ =>
      mkSeen (printed s) (opened s) (written s ++ [(path_of f (opened s), text)])
  | _ => s
  end.

Definition observe (tr : list entry) : seen := summary step nothing tr.

(** The lines printed and the (file name, text) pairs written by a run. *)
Definition printed_by (tr : list entry) : list string := printed (observe tr).
Definition written_by (tr : list entry) : list (option string * string) :=
  written (observe tr).

Definition is_file_call (c : call) : bool :=
  match c with
  | OpenW _ | FileWrite _ _ => true
  | _ => false
  end.

Definition not_file_call (c : call) : bool := negb (is_file_call c).

(** What is required of a [file.write]: the text is the ANOVA literal. *)
Definition writes_literal (_ : seen) (c : call) : Prop :=
  match c with
  | FileWrite _ text => text = "F(4,36) = 0.458, p = 0.766"
  | _ => True
  end.

Definition no_assumption (_ : seen) (_ : entry) : Prop := True.

End IO.

(** ** Further summaries of a run *)

(** What a program can return, whatever the libraries answer. *)
Fixpoint all_results {A} (Q : A -> Prop) (p : Prog A) : Prop :=
  match p with
  | Ret a => Q a
  | Raise _ => True
  | Do c k => forall x, all_results Q (k x)
  end.

(** *** Loading and reduction (lines 47-87) *)

Module Load.

Record loading := mkLoading {
  folders : list string;            (* folders given to format_data_for_subject *)
  blocks : list ndarray;            (* what it returned, in order *)
  averaged : option ndarray;        (* answer of average_over_runs *)
  mask : option (string * ndarray); (* region and answer of the last mask fetch *)
  cut : option ndarray              (* answer of the last rearrange_array *)
}.

Definition start : loading := mkLoading [] [] None None None.

Definition step (s : loading) (e : entry) : loading :=
  match e with
  | Entry (FormatDataForSubject folder _ _ _) b =>
      mkLoading (folders s ++ [folder]) (blocks s ++ [b]) (averaged s) (mask s) (cut s)
  | Entry (AverageOverRuns _) a =>
      mkLoading (folders s) (blocks s) (Some a) (mask s) (cut s)
  | Entry (GetVoxelsFromRegionOfInterest r _) m =>
      mkLoading (folders s) (blocks s) (averaged s) (Some (r, m)) None
  | Entry (RearrangeArray _ _) d =>
      mkLoading (folders s) (blocks s) (averaged s) (mask s) (Some d)
  | _ => s
  end.

Definition ok (s : loading) (c : call) : Prop :=
  match c with
  | FormatDataForSubject folder r selected all =>
      r = ["01"; "02"; "03"; "04"; "05"; "06"] /\
      selected = Script.selected_conditions /\ all = Script.all_conditions /\
      exists subject,
        nth_error Script.subjects (List.length (folders s)) = Some subject /\
        folder = "/Volumes/INTENSO/data/sub-" ++ subject ++ "/1st_level_good_bad_Imag"
  | AverageOverRuns formatted_data =>
      formatted_data = blocks s /\ List.length formatted_data = 10
  | GetVoxelsFromRegionOfInterest _ path => path = "/Volumes/INTENSO/data/"
  | RearrangeArray voxels data =>
      averaged s = Some data /\ exists r, mask s = Some (r, voxels)
  | CreateRsaDatasets data n key =>
      cut s = Some data /\ n = 10 /\ key = "conditions"
  | _ => True
  end.

Definition no_assumption (_ : loading) (_ : entry) : Prop := True.

End Load.

(** *** Directory and file handling of the ANOVA section (lines 220-231) *)

Module Files.

Record files := mkFiles {
  checked : list (string * bool);   (* answers of os.path.exists, newest first *)
  made : list string;               (* directories created *)
  removed : list string;            (* files removed *)
  opened : list (FileObj * string); (* files opened for writing *)
  written : list FileObj;           (* files written to *)
  closed : list FileObj             (* files closed *)
}.

Definition start : files := mkFiles [] [] [] [] [] [].

Fixpoint known (path : string) (l : list (string * bool)) : option bool :=
  match l with
  | [] => None
  | (p, b) :: l' => if String.eqb p path then Some b else known path l'
  end.

Definition step (s : files) (e : entry) : files :=
  match e with
  | Entry (OsPathExists p) b =>
      mkFiles ((p, b) :: checked s) (made s) (removed s) (opened s) (written s) (closed s)
  | Entry (OsMakedirs p) _ =>
      mkFiles (checked s) (p :: made s) (removed s) (opened s) (written s) (closed s)
  | Entry (OsRemove p) _ =>
      mkFiles (checked s) (made s) (p :: removed s) (opened s) (written s) (closed s)
  | Entry (OpenW p) f =>
      mkFiles (checked s) (made s) (removed s) ((f, p) :: opened s) (written s) (closed s)
  | Entry (FileWrite f _) _ =>
      mkFiles (checked s) (made s) (removed s) (opened s) (f :: written s) (closed s)
  | Entry (FileClose f) _ =>
      mkFiles (checked s) (made s) (removed s) (opened s) (written s) (f :: closed s)
  | _ => s
  end.

Definition ok (s : files) (c : call) : Prop :=
  match c with
  | OsMakedirs p => known p (checked s) = Some false
  | OsRemove p => known p (checked s) = Some true
  | OpenW p =>
      p = "../analysis/anova/similiarities_anova.txt" /\
      (known "../analysis/anova" (checked s) = Some true \/
       In "../analysis/anova" (made s)) /\
      (known p (checked s) = Some false \/ In p (removed s)) /\
      opened s = []
  | FileWrite f _ =>
      (exists p, opened s = [(f, p)]) /\ written s = [] /\ closed s = []
  | FileClose f =>
      (exists p, opened s = [(f, p)]) /\ written s = [f] /\ closed s = []
  | _ => True
  end.

Definition no_assumption (_ : files) (_ : entry) : Prop := True.

Definition after (tr : list entry) : files := summary step start tr.

Definition not_os_call (c : call) : bool :=
  match c with
  | OsPathExists _ | OsMakedirs _ | OsRemove _ | OpenW _ | FileWrite _ _
  | FileClose _ => false
  | _ => true
  end.

End Files.

(** *** Answers the script cannot go on with

    [create_rsa_datasets] must give at least ten data sets (one is indexed
    per subject, line 145), [rdm.compare] a matrix with an element [0][0]
    (line 166), and [np.genfromtxt] eleven values, or two, of which the last
    is dropped (line 207). *)

Definition malformed (e : entry) : bool :=
  match e with
  | Entry (CreateRsaDatasets _ _ _) d => Nat.ltb (List.length d) 10
  | Entry (RdmCompare _ _ _) m =>
      match m with
      | (_ :: _) :: _ => false
      | _ => true
      end
  | Entry (NpGenfromtxt _ _) p =>
      negb (Nat.eqb (List.length p) 11 || Nat.eqb (List.length p) 2)
  | _ => false
  end.

Definition seen_malformed (s : bool) (e : entry) : bool := s || malformed e.

Definition well_formed_call (c : call) : bool :=
  match c with
  | CreateRsaDatasets _ _ _ | RdmCompare _ _ _ | NpGenfromtxt _ _ => false
  | _ => true
  end.

Definition anything (_ : bool) (_ : call) : Prop := True.
Definition any_answer (_ : bool) (_ : entry) : Prop := True.

(** *** The data frame of the ANOVA (lines 203-211) *)

Module Frame.

(** What [a[lo:lo+width] = v] stores when it succeeds: [v] itself, or its
    single element repeated. *)
Definition slice_value (width : nat) (v : list pyfloat) : list pyfloat :=
  if Nat.eqb (List.length v) width then v
  else match v with
       | [x] => repeat x width
       | _ => v
       end.

(** The slice a parsed file contributes. *)
Definition slice_of (parsed : list pyfloat) : list pyfloat :=
  slice_value 10 (removelast parsed).

(** The summary: the parsed files, in the order they were read. *)
Definition step (s : list (list pyfloat)) (e : entry) : list (list pyfloat) :=
  match e with
  | Entry (NpGenfromtxt _ _) parsed => (s ++ [parsed])%list
  | _ => s
  end.

Definition values_ok (s : list (list pyfloat)) (c : call) : Prop :=
  match c with
  | AnovaRMFit data _ _ _ =>
      List.length s = 5 /\
      col_Similiarity data = List.concat (map slice_of s) /\
      List.length (col_Similiarity data) = 50 /\
      List.length (col_Subject data) = 50 /\
      List.length (col_ROIs data) = 50
  | _ => True
  end.

Definition rows_ok (s : list (list pyfloat)) (c : call) : Prop :=
  match c with
  | AnovaRMFit data _ _ _ =>
      forall r j, r < 5 -> j < 10 ->
        nth_error (col_ROIs data) (r * 10 + j) = Some (Z.of_nat r + 1)%Z /\
        nth_error (col_Subject data) (r * 10 + j) = Some (Z.of_nat j + 1)%Z /\
        exists parsed,
          nth_error s r = Some parsed /\
          nth_error (col_Similiarity data) (r * 10 + j) = nth_error (slice_of parsed) j
  | _ => True
  end.

Definition ok (s : list (list pyfloat)) (c : call) : Prop :=
  values_ok s c /\ rows_ok s c.

Definition no_assumption (_ : list (list pyfloat)) (_ : entry) : Prop := True.

Definition not_read (c : call) : bool :=
  match c with
  | NpGenfromtxt _ _ | AnovaRMFit _ _ _ _ => false
  | _ => true
  end.

End Frame.

(** *** Saving the RDMs of a region (lines 188-193) *)

Module Saves.

Record saves := mkSaves {
  region : option string;                  (* region in work *)
  rdms : list RDMs;                        (* answers of the euclidean calc_rdm calls *)
  matrices : option (RDMs * list ndarray); (* last get_matrices: its RDM and answer *)
  count : nat                              (* save_rdm_results calls in this region *)
}.

Definition start : saves := mkSaves None [] None 0.

Definition step (s : saves) (e : entry) : saves :=
  match e with
  | Entry (GetVoxelsFromRegionOfInterest r _) _ => mkSaves (Some r) [] None 0
  | Entry (CalcRdm _ _ _) r => mkSaves (region s) (rdms s ++ [r]) (matrices s) (count s)
  | Entry (GetMatrices rdm) ms => mkSaves (region s) (rdms s) (Some (rdm, ms)) (count s)
  | Entry (SaveRdmResults _ _ _ _ _ _) _ =>
      mkSaves (region s) (rdms s) None (S (count s))
  | _ => s
  end.

Definition ok (s : saves) (c : call) : Prop :=
  match c with
  | SaveRdmResults rp r condition m matrix subject =>
      rp = "../analysis/" /\ region s = Some r /\ m = "euclidean" /\
      nth_error ["stimulation"; "imagery"; "all"] (count s mod 3) = Some condition /\
      nth_error Script.subjects (count s / 3) = Some subject /\
      exists rdm ms k,
        List.length (rdms s) = 3 /\
        nth_error (rdms s) (count s mod 3) = Some rdm /\
        matrices s = Some (rdm, ms) /\
        py_int subject = Ret k /\
        nth_error ms (Z.to_nat (k - 1)) = Some matrix
  | _ => True
  end.

Definition no_assumption (_ : saves) (_ : entry) : Prop := True.

Definition after (tr : list entry) : saves := summary step start tr.

Definition not_saving (c : call) : bool :=
  match c with
  | GetVoxelsFromRegionOfInterest _ _ | CalcRdm _ _ _ | GetMatrices _
  | SaveRdmResults _ _ _ _ _ _ => false
  | _ => true
  end.

End Saves.

(** *** The report of the t-test (lines 180-186, 197) *)

Module Report.

Record report := mkReport {
  region : option string;                       (* region in work *)
  test : option (list pyfloat * TtestResult);   (* values tested and the result *)
  mean : option (list pyfloat * pyfloat);       (* values averaged and the mean *)
  strings : list (pyfloat * string);            (* numbers rounded and printed *)
  line : option string                          (* the line printed for the region *)
}.

Definition start : report := mkReport None None None [] None.

Definition step (s : report) (e : entry) : report :=
  match e with
  | Entry (GetVoxelsFromRegionOfInterest r _) _ => mkReport (Some r) None None [] None
  | Entry (Ttest1samp v _ _) res =>
      mkReport (region s) (Some (v, res)) (mean s) (strings s) (line s)
  | Entry (NpMean v) m =>
      mkReport (region s) (test s) (Some (v, m)) (strings s) (line s)
  | Entry (StrRound3 x) str =>
      mkReport (region s) (test s) (mean s) (strings s ++ [(x, str)]) (line s)
  | Entry (Print l) _ =>
      mkReport (region s) (test s) (mean s) (strings s) (Some l)
  | _ => s
  end.

(** The report text built from a test result and the three printed numbers. *)
Definition text (res : TtestResult) (mean_s stat_s p_s : string) : string :=
  "corr = " ++ mean_s ++ " (T = " ++ stat_s ++ ", p = " ++ p_s
    ++ ", df = " ++ str_Z (df res) ++ ")".

Definition ok (s : report) (c : call) : Prop :=
  match c with
  | Print l =>
      l = Script.anova_sentence \/
      exists r v res m mean_s stat_s p_s,
        region s = Some r /\ test s = Some (v, res) /\ mean s = Some (v, m) /\
        strings s = [(m, mean_s); (statistic res, stat_s); (pvalue res, p_s)] /\
        l = "The average similarity of stimulation and imagery RDMs across 10 subjects in "
              ++ r ++ " is: " ++ text res mean_s stat_s p_s
  | SaveRsaResults rp r condition m (Text t) =>
      rp = "../analysis/" /\ condition = "stim_imag" /\ m = "ttest" /\
      region s = Some r /\
      line s = Some ("The average similarity of stimulation and imagery RDMs across 10 subjects in "
                       ++ r ++ " is: " ++ t)
  | _ => True
  end.

Definition no_assumption (_ : report) (_ : entry) : Prop := True.

Definition not_reporting (c : call) : bool :=
  match c with
  | GetVoxelsFromRegionOfInterest _ _ | Ttest1samp _ _ _ | NpMean _ | StrRound3 _
  | Print _ | SaveRsaResults _ _ _ _ _ => false
  | _ => true
  end.

(** The calls of the ANOVA section. *)
Definition anova_call (c : call) : bool :=
  match c with
  | Print l => String.eqb l Script.anova_sentence
  | NpGenfromtxt _ _ | AnovaRMFit _ _ _ _ | OsPathExists _ | OsMakedirs _
  | OsRemove _ | OpenW _ | FileWrite _ _ | FileClose _ => true
  | _ => false
  end.

End Report.
(** ** Facts about runs and summaries *)

Lemma run_bind {W A B} (h : handler W) (p : Prog A) (f : A -> Prog B) (w : W) :
  run h (bind p f) w =
  match run h p w with
  | (Done a, w1, t1) =>
      let '(o, w2, t2) := run h (f a) w1 in (o, w2, (t1 ++ t2)%list)
  | (Uncaught e, w1, t1) => (Uncaught e, w1, t1)
  end.
Proof.
  revert w; induction p as [a|e|c k IH]; intro w; simpl.
  - destruct (run h (f a) w) as [[o w2] t2]; reflexivity.
  - reflexivity.
  - destruct (h c w) as [[x w1]|]; [|reflexivity].
    rewrite IH. destruct (run h (k x) w1) as [[[a|e] w2] t1]; [|reflexivity].
    destruct (run h (f a) w2) as [[o w3] t2]; reflexivity.
Qed.

Section SummaryFacts.
Variable S : Type.
Variable step : S -> entry -> S.
Variable ok : S -> call -> Prop.
Variable asm : S -> entry -> Prop.

#[local] Abbreviation wp := (@wp S step ok asm).
#[local] Abbreviation summary := (@summary S step).
#[local] Abbreviation assumed := (@assumed S step asm).
#[local] Abbreviation at_every_call := (@at_every_call S step ok).

Lemma wp_mono {A} (p : Prog A) s (post post' : S -> A -> Prop) :
  (forall s' a, post s' a -> post' s' a) -> wp p s post -> wp p s post'.
Proof.
  intro Himp. revert s; induction p as [a|e|c k IH]; intros s; simpl; auto.
  intros [Hok Hk]; split; auto.
Qed.

Lemma wp_bind {A B} (p : Prog A) (f : A -> Prog B) s post :
  wp p s (fun s' a => wp (f a) s' post) -> wp (bind p f) s post.
Proof.
  revert s; induction p as [a|e|c k IH]; intros s; simpl; auto.
  intros [Hok Hk]; split; auto.
Qed.

Lemma wp_perform (c : call) s (post : S -> resp c -> Prop) :
  ok s c -> (forall x, asm s (Entry c x) -> post (step s (Entry c x)) x) ->
  wp (perform c) s post.
Proof. intros; simpl; auto. Qed.

(** Loop rule: [inv] holds of the items still to do, the summary and the
    accumulator. *)
Lemma wp_for_fold {A St} (body : St -> A -> Prog St)
    (inv : list A -> S -> St -> Prop) (l : list A) s acc post :
  inv l s acc ->
  (forall a rest s' acc', inv (a :: rest) s' acc' ->
      wp (body acc' a) s' (fun s'' acc'' => inv rest s'' acc'')) ->
  (forall s' acc', inv [] s' acc' -> post s' acc') ->
  wp (for_fold l body acc) s post.
Proof.
  intros Hinv Hbody Hpost. revert s acc Hinv.
  induction l as [|a l IH]; intros s acc Hinv; simpl.
  - auto.
  - apply wp_bind. eapply wp_mono; [|apply Hbody; exact Hinv].
    intros s' acc' Hi. apply IH; exact Hi.
Qed.

Lemma wp_sound {W A} (h : handler W) (p : Prog A) (w : W) s post :
  wp p s post ->
  assumed s (trace_of h p w) ->
  at_every_call s (trace_of h p w) /\
  (forall a, outcome_of h p w = Done a -> post (summary s (trace_of h p w)) a).
Proof.
  unfold trace_of, outcome_of, at_every_call.
  revert w s; induction p as [a|e|c k IH]; intros w s Hwp Hasm; simpl in *.
  - split.
    + intros [|? ?] ? ? ? Heq; discriminate.
    + intros a' Ha; inversion Ha; subst; exact Hwp.
  - split.
    + intros [|? ?] ? ? ? Heq; discriminate.
    + intros a' Ha; discriminate.
  - destruct Hwp as [Hok Hk].
    destruct (h c w) as [[x w1]|] eqn:Hh; simpl in *.
    + specialize (IH x w1 (step s (Entry c x))).
      destruct (run h (k x) w1) as [[o w2] tr] eqn:Hr; simpl in *.
      destruct Hasm as [Ha1 Ha2].
      destruct (IH (Hk x Ha1) Ha2) as [IH1 IH2].
      split.
      * intros [|e0 hist] c0 x0 rest Heq; simpl in Heq.
        -- inversion Heq; subst; exact Hok.
        -- inversion Heq; subst. simpl. eapply IH1; reflexivity.
      * exact IH2.
    + split.
      * intros [|? ?] ? ? ? Heq; discriminate.
      * intros a' Ha; discriminate.
Qed.
End SummaryFacts.


Lemma all_calls_bind {A B} q (p : Prog A) (f : A -> Prog B) :
  all_calls q p -> (forall a, all_calls q (f a)) -> all_calls q (bind p f).
Proof.
  intros Hp Hf; induction p as [a|e|c k IH]; simpl in *; auto.
  destruct Hp as [Hc Hk]; split; auto.
Qed.

Lemma all_calls_for_fold {A St} q (body : St -> A -> Prog St) l acc :
  (forall s a, all_calls q (body s a)) -> all_calls q (for_fold l body acc).
Proof.
  intro Hb; revert acc; induction l as [|a l IH]; intro acc; simpl; auto.
  apply all_calls_bind; auto.
Qed.

Lemma all_calls_py_int q s : all_calls q (py_int s).
Proof.
  unfold py_int; destruct s; simpl; auto.
  destruct (match digit_of a with Some d => _ | None => _ end); simpl; auto.
Qed.

Lemma all_calls_py_getitem {A} q (l : list A) i : all_calls q (py_getitem l i).
Proof.
  unfold py_getitem.
  destruct (_ && _)%bool; simpl; auto.
  destruct (nth_error _ _); simpl; auto.
Qed.

Lemma all_calls_assign_slice {A} q (a : list A) lo hi v :
  all_calls q (assign_slice a lo hi v).
Proof.
  unfold assign_slice. destruct (Nat.eqb _ _); simpl; auto.
  destruct v as [|x [|y v']]; simpl; auto.
Qed.

Ltac calls_step :=
  match goal with
  | |- all_calls _ (bind _ _) => apply all_calls_bind; [|intros]
  | |- all_calls _ (for_fold _ _ _) => apply all_calls_for_fold; intros
  | |- all_calls _ (py_int _) => apply all_calls_py_int
  | |- all_calls _ (py_getitem _ _) => apply all_calls_py_getitem
  | |- all_calls _ (assign_slice _ _ _ _) => apply all_calls_assign_slice
  | |- all_calls _ (perform _) =>
      simpl; split; [reflexivity || apply String.eqb_refl | intros; exact I]
  | |- all_calls _ (Ret _) => exact I
  | |- all_calls _ (if ?b then _ else _) => destruct b
  | |- all_calls _ (match ?x with (_, _) => _ end) => destruct x
  | |- all_calls _ (let '(_, _) := ?x in _) => destruct x
  end.

Ltac calls_tac := repeat calls_step.

Lemma wp_all_calls {S} (step : S -> entry -> S) (ok : S -> call -> Prop)
    (asm : S -> entry -> Prop) (q : call -> bool) (inv : S -> Prop) :
  (forall s c, inv s -> q c = true -> ok s c) ->
  (forall s c x, inv s -> q c = true -> inv (step s (Entry c x))) ->
  forall A (p : Prog A) s,
    all_calls q p -> inv s -> wp step ok asm p s (fun s' _ => inv s').
Proof.
  intros Hok Hstep A p; induction p as [a|e|c k IH]; intros s Hall Hinv;
    simpl in *; auto.
  destruct Hall as [Hq Hk]. split; auto.
Qed.


Lemma all_calls_mono {A} (q q' : call -> bool) (p : Prog A) :
  (forall c, q c = true -> q' c = true) -> all_calls q p -> all_calls q' p.
Proof.
  intro Hq; induction p as [a|e|c k IH]; simpl; auto.
  intros [Hc Hk]; split; auto.
Qed.

Lemma assumed_trivial {S} (step : S -> entry -> S) s tr :
  assumed step (fun _ _ => True) s tr.
Proof. revert s; induction tr as [|e tr IH]; intro s; simpl; auto. Qed.

(** *** The blocks of the script make no [open]/[write] calls before the
    ANOVA section *)

Lemma format_data_no_file u : all_calls IO.not_file_call (Script.format_data u).
Proof. unfold Script.format_data. calls_tac. Qed.

Lemma region_body_no_file b avg acc region :
  all_calls IO.not_file_call (Script.region_body b avg acc region).
Proof.
  unfold Script.region_body, Script.select_conditions, Script.mahalanobis_block,
    Script.mahalanobis_for_subject, Script.compare_rdms,
    Script.similiarity_for_subject, Script.test_significance,
    Script.save_rdms, Script.matrix_of, Script.save_rsa.
  calls_tac.
Qed.

Lemma read_similiarities_no_file u :
  all_calls IO.not_file_call (Script.read_similiarities u).
Proof. unfold Script.read_similiarities. calls_tac. Qed.

Lemma io_quiet {A} (p : Prog A) s :
  all_calls IO.not_file_call p ->
  IO.written s = [] -> IO.opened s = [] ->
  wp IO.step IO.writes_literal IO.no_assumption p s
     (fun s' _ => IO.written s' = [] /\ IO.opened s' = []).
Proof.
  intros Hall Hw Ho.
  apply (wp_all_calls IO.step IO.writes_literal IO.no_assumption IO.not_file_call
           (fun s => IO.written s = [] /\ IO.opened s = [])); auto.
  - intros s0 c _ Hq. destruct c; simpl; auto; discriminate.
  - intros s0 c x [H1 H2] Hq. destruct c; simpl; auto; discriminate.
Qed.

Lemma io_pipeline b u1 u2 :
  wp IO.step IO.writes_literal IO.no_assumption (Script.pipeline b u1 u2) IO.nothing
     (fun s _ =>
        IO.written s = [(Some Script.anova_filename, Script.anova_report)] /\
        last (IO.printed s) "" = Script.anova_sentence).
Proof.
  unfold Script.pipeline.
  apply wp_bind. eapply wp_mono; [|apply io_quiet; [apply format_data_no_file|reflexivity..]].
  intros s1 fd [Hw1 Ho1]. apply wp_bind.
  eapply wp_mono; [|apply io_quiet; [calls_tac|assumption..]].
  intros s2 avg [Hw2 Ho2]. apply wp_bind.
  eapply wp_mono; [|apply io_quiet; [|assumption..]].
  2:{ apply all_calls_for_fold; intros; apply region_body_no_file. }
  intros s3 _ [Hw3 Ho3]. unfold Script.anova_section.
  apply wp_bind.
  eapply wp_mono; [|apply io_quiet; [apply read_similiarities_no_file|assumption..]].
  intros s4 vals [Hw4 Ho4].
  simpl. split; [exact I|]. intros anova_results _.
  split; [exact I|]. intros [] _.
  split; [exact I|]. intros e1 _.
  destruct e1; simpl.
  - split; [exact I|]. intros e2 _. destruct e2; simpl.
    + split; [exact I|]. intros [] _. split; [exact I|]. intros file _.
      simpl. split; [reflexivity|]. intros [] _. split; [exact I|]. intros [] _.
      simpl. rewrite Hw4. unfold IO.file_eqb. destruct file as [n].
      rewrite Nat.eqb_refl. split; [reflexivity|]. apply last_last.
    + split; [exact I|]. intros file _.
      simpl. split; [reflexivity|]. intros [] _. split; [exact I|]. intros [] _.
      simpl. rewrite Hw4. unfold IO.file_eqb. destruct file as [n].
      rewrite Nat.eqb_refl. split; [reflexivity|]. apply last_last.
  - split; [exact I|]. intros [] _. simpl.
    split; [exact I|]. intros e2 _. destruct e2; simpl.
    + split; [exact I|]. intros [] _. split; [exact I|]. intros file _.
      simpl. split; [reflexivity|]. intros [] _. split; [exact I|]. intros [] _.
      simpl. rewrite Hw4. unfold IO.file_eqb. destruct file as [n].
      rewrite Nat.eqb_refl. split; [reflexivity|]. apply last_last.
    + split; [exact I|]. intros file _.
      simpl. split; [reflexivity|]. intros [] _. split; [exact I|]. intros [] _.
      simpl. rewrite Hw4. unfold IO.file_eqb. destruct file as [n].
      rewrite Nat.eqb_refl. split; [reflexivity|]. apply last_last.
Qed.

Lemma io_run {W} (h : handler W) w b u1 u2 :
  let tr := trace_of h (Script.pipeline b u1 u2) w in
  (forall f text r, In (Entry (FileWrite f text) r) tr ->
     text = "F(4,36) = 0.458, p = 0.766") /\
  (outcome_of h (Script.pipeline b u1 u2) w = Done tt ->
     IO.written_by tr = [(Some Script.anova_filename, Script.anova_report)] /\
     last (IO.printed_by tr) "" = Script.anova_sentence).
Proof.
  intro tr.
  destruct (@wp_sound _ IO.step IO.writes_literal IO.no_assumption _ _ h
              (Script.pipeline b u1 u2) w _ _ (io_pipeline b u1 u2)
              (assumed_trivial _ _ _)) as [Hcalls Hdone].
  split.
  - intros f text r Hin. apply in_split in Hin. destruct Hin as [hist [rest Heq]].
    exact (Hcalls hist _ r rest Heq).
  - intro Ho. exact (Hdone tt Ho).
Qed.



(** *** Programs that make the same calls run alike *)

Lemma same_calls_bind {A B A' B'} (R : A -> B -> Prop) (R' : A' -> B' -> Prop)
    p q (f : A -> Prog A') (g : B -> Prog B') :
  same_calls R p q -> (forall a b, R a b -> same_calls R' (f a) (g b)) ->
  same_calls R' (bind p f) (bind q g).
Proof.
  intros Hpq Hfg; induction Hpq as [a b Hab|e|c k k' Hk IH]; simpl.
  - apply Hfg; exact Hab.
  - constructor.
  - constructor; intro x; apply IH.
Qed.

Lemma same_calls_refl {A} (p : Prog A) : same_calls eq p p.
Proof. induction p; constructor; auto. Qed.

Lemma same_calls_for_fold {A St St'} (rel : list A -> St -> St' -> Prop)
    (body : St -> A -> Prog St) (body' : St' -> A -> Prog St') l s s' :
  rel l s s' ->
  (forall a rest t t', rel (a :: rest) t t' ->
      same_calls (rel rest) (body t a) (body' t' a)) ->
  same_calls (rel []) (for_fold l body s) (for_fold l body' s').
Proof.
  intros Hrel Hbody; revert s s' Hrel.
  induction l as [|a l IH]; intros s s' Hrel; simpl.
  - constructor; exact Hrel.
  - eapply same_calls_bind; [apply Hbody; exact Hrel|].
    intros t t' Ht; apply IH; exact Ht.
Qed.

Lemma same_calls_run {W A B} (h : handler W) (R : W -> W -> Prop)
    (Q : A -> B -> Prop) p q :
  answers_alike h R -> same_calls Q p q ->
  forall w1 w2, R w1 w2 ->
    same_end Q (outcome_of h p w1) (outcome_of h q w2) /\
    R (world_of h p w1) (world_of h q w2) /\
    trace_of h p w1 = trace_of h q w2.
Proof.
  unfold outcome_of, world_of, trace_of.
  intros Hh Hpq; induction Hpq as [a b Hab|e|c k k' Hk IH]; intros w1 w2 Hw; simpl.
  - auto.
  - auto.
  - specialize (Hh c w1 w2 Hw).
    destruct (h c w1) as [[x1 w1']|], (h c w2) as [[x2 w2']|]; simpl;
      try contradiction; auto.
    destruct Hh as [Hx Hw']; subst x2.
    specialize (IH x1 w1' w2' Hw').
    destruct (run h (k x1) w1') as [[o1 v1] t1], (run h (k' x1) w2') as [[o2 v2] t2].
    simpl in *. destruct IH as [H1 [H2 H3]]. repeat split; auto. congruence.
Qed.

(** *** What [np.empty] left in memory never reaches a call *)

Lemma set_slot_app {A} (filled : list A) x g v :
  set_slot (List.length filled) v (filled ++ x :: g) = ((filled ++ [v]) ++ g)%list.
Proof.
  induction filled as [|y filled IH]; simpl; [reflexivity|].
  rewrite IH; reflexivity.
Qed.

Lemma format_data_same u v :
  same_calls eq (Script.format_data u) (Script.format_data v).
Proof.
  unfold Script.format_data.
  set (body := fun (formatted_data : list ndarray) (pat : nat * string) => _).
  assert (Hgen : forall (l : list string) k a b,
             (exists filled ga gb, a = (filled ++ ga)%list /\ b = (filled ++ gb)%list /\
                List.length filled = k /\ List.length ga = List.length l /\
                List.length gb = List.length l) ->
             same_calls eq (for_fold (combine (seq k (List.length l)) l) body a)
                           (for_fold (combine (seq k (List.length l)) l) body b)).
  { induction l as [|subject l IH]; intros k a b [filled [ga [gb [Ha [Hb [Lf [La Lb]]]]]]].
    - simpl. destruct ga; [|discriminate]. destruct gb; [|discriminate].
      subst; constructor; reflexivity.
    - simpl. destruct ga as [|x ga]; [discriminate|]. destruct gb as [|y gb]; [discriminate|].
      constructor; intro block. simpl.
      subst a b k. rewrite !set_slot_app.
      apply IH.
      exists (filled ++ [block])%list, ga, gb. simpl in La, Lb.
      rewrite length_app; simpl. repeat split; try congruence. lia. }
  unfold enumerate. apply Hgen.
  exists [], (np_empty u (List.length Script.subjects)),
      (np_empty v (List.length Script.subjects)).
  unfold np_empty. rewrite !length_map, !length_seq. auto.
Qed.

Lemma assign_slice_same {A} (filled ga gb : list A) lo hi v :
  List.length filled = lo -> hi = lo + 10 ->
  10 <= List.length ga -> List.length ga = List.length gb ->
  same_calls
    (fun a b => exists filled' ga' gb',
         a = (filled' ++ ga')%list /\ b = (filled' ++ gb')%list /\
         List.length filled' = hi /\
         List.length ga' = List.length ga - 10 /\ List.length gb' = List.length ga - 10)
    (assign_slice (filled ++ ga) lo hi v) (assign_slice (filled ++ gb) lo hi v).
Proof.
  intros Hlo Hhi Hga Hgb. unfold assign_slice.
  assert (Hw : hi - lo = 10) by lia. rewrite Hw.
  assert (Hf : forall g : list A, firstn lo (filled ++ g) = filled).
  { intro g. rewrite firstn_app, Hlo, Nat.sub_diag. simpl.
    rewrite app_nil_r. rewrite <- Hlo. apply firstn_all. }
  assert (Hs : forall g : list A, skipn hi (filled ++ g) = skipn 10 g).
  { intro g. rewrite skipn_app.
    rewrite skipn_all2 by lia. replace (hi - List.length filled) with 10 by lia. reflexivity. }
  rewrite !Hf, !Hs.
  destruct (Nat.eqb (List.length v) 10) eqn:Hlen.
  - apply Nat.eqb_eq in Hlen. constructor.
    exists (filled ++ v)%list, (skipn 10 ga), (skipn 10 gb).
    rewrite <- !app_assoc, length_app, !length_skipn.
    repeat split; try reflexivity; lia.
  - destruct v as [|x [|y v']]; try constructor.
    exists (filled ++ repeat x 10)%list, (skipn 10 ga), (skipn 10 gb).
    rewrite <- !app_assoc, length_app, repeat_length, !length_skipn.
    repeat split; try reflexivity; lia.
Qed.

Lemma read_similiarities_same u v :
  same_calls eq (Script.read_similiarities u) (Script.read_similiarities v).
Proof.
  unfold Script.read_similiarities.
  set (n := List.length Script.subjects).
  set (body := fun (all_similiarity_values : list pyfloat) (pat : nat * string) => _).
  assert (Hgen : forall (l : list string) k a b,
             (exists filled ga gb, a = (filled ++ ga)%list /\ b = (filled ++ gb)%list /\
                List.length filled = k * 10 /\ List.length ga = List.length l * 10 /\
                List.length gb = List.length l * 10) ->
             same_calls eq (for_fold (combine (seq k (List.length l)) l) body a)
                           (for_fold (combine (seq k (List.length l)) l) body b)).
  { induction l as [|region l IH]; intros k a b [filled [ga [gb [Ha [Hb [Lf [La Lb]]]]]]].
    - simpl. destruct ga; [|discriminate]. destruct gb; [|discriminate].
      subst; constructor; reflexivity.
    - simpl. constructor; intro vals. subst a b.
      eapply same_calls_bind.
      + apply assign_slice_same with (lo := k * n) (hi := k * n + n);
          unfold n; simpl in *; try lia.
      + intros a' b' [filled' [ga' [gb' [Ha' [Hb' [Lf' [La' Lb']]]]]]].
        apply IH. exists filled', ga', gb'. unfold n in *; simpl in *.
        repeat split; auto; lia. }
  unfold enumerate. apply Hgen.
  exists [], (np_empty u (n * List.length Script.regions_of_interest)),
    (np_empty v (n * List.length Script.regions_of_interest)).
  unfold np_empty. rewrite !length_map, !length_seq. auto.
Qed.

Lemma pipeline_same b u1 u2 v1 v2 :
  same_calls eq (Script.pipeline b u1 u2) (Script.pipeline b v1 v2).
Proof.
  unfold Script.pipeline.
  eapply same_calls_bind; [apply format_data_same|].
  intros fd fd' <-.
  eapply same_calls_bind; [apply same_calls_refl|].
  intros avg avg' <-.
  eapply same_calls_bind; [apply same_calls_refl|].
  intros acc acc' <-.
  unfold Script.anova_section.
  eapply same_calls_bind; [apply read_similiarities_same|].
  intros vals vals' <-. apply same_calls_refl.
Qed.


Lemma model_answers_alike : answers_alike Model.lib eq.
Proof.
  intros c w1 w2 Hw; subst w2.
  destruct (Model.lib c w1) as [[x w]|]; auto.
Qed.


(** *** Taking the Mahalanobis block out *)

Lemma drops_bind {A B} skip (p q : Prog A) (f g : A -> Prog B) :
  drops skip p q -> (forall a, drops skip (f a) (g a)) ->
  drops skip (bind p f) (bind q g).
Proof.
  intros Hpq Hfg; induction Hpq as [a|e q|c k k' Hc Hk IH|c k q Hc Hk IH]; simpl.
  - apply Hfg.
  - constructor.
  - apply drops_do; auto.
  - apply drops_skip; auto.
Qed.

Lemma drops_same {A} skip (p : Prog A) :
  all_calls (fun c => negb (skip c)) p -> drops skip p p.
Proof.
  induction p as [a|e|c k IH]; simpl; intro H; try constructor.
  - destruct H as [Hc Hk]. apply Bool.negb_true_iff in Hc; exact Hc.
  - destruct H as [Hc Hk]. intro x; apply IH; apply Hk.
Qed.

Lemma drops_all_skipped {A B} skip (m : Prog A) (f : A -> Prog B) q :
  all_calls skip m -> (forall a, drops skip (f a) q) -> drops skip (bind m f) q.
Proof.
  induction m as [a|e|c k IH]; simpl; intros Hm Hf.
  - apply Hf.
  - constructor.
  - destruct Hm as [Hc Hk]. apply drops_skip; auto.
Qed.

Lemma drops_for_fold {A St} skip (body body' : St -> A -> Prog St) l s :
  (forall t a, drops skip (body t a) (body' t a)) ->
  drops skip (for_fold l body s) (for_fold l body' s).
Proof.
  intro Hb; revert s; induction l as [|a l IH]; intro s; simpl.
  - constructor.
  - apply drops_bind; auto.
Qed.

Lemma drops_run {W A} (h : handler W) skip (p q : Prog A) :
  only_reads h skip -> drops skip p q ->
  forall w a w' tr,
    run h p w = (Done a, w', tr) ->
    run h q w = (Done a, w', filter (fun e => negb (skip (call_of e))) tr).
Proof.
  intros Hpure Hpq; induction Hpq as [a0|e q|c k k' Hc Hk IH|c k q Hc Hk IH];
    intros w a w' tr Hrun; simpl in *.
  - inversion Hrun; subst; reflexivity.
  - discriminate.
  - destruct (h c w) as [[x w1]|]; [|discriminate].
    destruct (run h (k x) w1) as [[o w2] t] eqn:Hr.
    inversion Hrun; subst. rewrite (IH x w1 a w' t Hr). simpl. rewrite Hc. reflexivity.
  - destruct (h c w) as [[x w1]|] eqn:Hh; [|discriminate].
    destruct (run h (k x) w1) as [[o w2] t] eqn:Hr.
    inversion Hrun; subst. simpl. rewrite Hc. simpl.
    rewrite (Hpure c w x w1 Hc Hh) in Hr. apply (IH x w a w' t Hr).
Qed.

Ltac drops_same_step :=
  apply drops_bind; [apply drops_same; calls_tac | intros].

Lemma region_body_drops avg acc region :
  drops is_mahalanobis_call (Script.region_body true avg acc region)
                            (Script.region_body false avg acc region).
Proof.
  unfold Script.region_body.
  do 3 drops_same_step.
  apply drops_bind.
  { apply drops_same. unfold Script.select_conditions. calls_tac. }
  intros [stimulation_data imagery_data].
  do 3 drops_same_step.
  match goal with
  | |- drops _ (bind (bind ?m ?f) ?g) (bind (Ret tt) ?g') =>
      change (bind (Ret tt) g') with (g' tt)
  end.
  apply drops_all_skipped.
  - unfold Script.mahalanobis_block, Script.mahalanobis_for_subject. calls_tac.
  - intros []. apply drops_same.
    unfold Script.compare_rdms, Script.similiarity_for_subject,
      Script.test_significance, Script.save_rdms, Script.matrix_of, Script.save_rsa.
    calls_tac.
Qed.

Lemma pipeline_drops u1 u2 :
  drops is_mahalanobis_call (Script.pipeline true u1 u2) (Script.pipeline false u1 u2).
Proof.
  unfold Script.pipeline.
  apply drops_bind; [apply drops_same; unfold Script.format_data; calls_tac|intros fd].
  drops_same_step.
  apply drops_bind.
  - apply drops_for_fold. intros; apply region_body_drops.
  - intros _. apply drops_same.
    unfold Script.anova_section, Script.read_similiarities. calls_tac.
Qed.


Lemma model_only_reads : only_reads Model.lib is_mahalanobis_call.
Proof.
  intros c w x w' Hc Hh.
  destruct c; try discriminate Hc; simpl in Hh;
    try (destruct (Model.residuals_present w); [|discriminate Hh]);
    inversion Hh; reflexivity.
Qed.



(** C1.  The ANOVA is fitted on the similarity values of the run (dependent
    variable 'Similiarity', subject 'Subject', within-factor 'ROIs'), but what
    is written is not taken from the fit: two runs whose similarity values
    and whose fitted objects differ write the same literal. *)
Theorem C1_written_anova_is_not_the_fit :
  let tr1 := trace_of Model.lib (Script.script Model.uninit_data Model.uninit_sim)
               Model.world0 in
  let tr2 := trace_of Model.lib (Script.script Model.uninit_data Model.uninit_sim)
               (Model.mkWorld 500 [] true) in
  map col_Similiarity (anova_frames tr1) <> map col_Similiarity (anova_frames tr2) /\
  anova_fits tr1 <> anova_fits tr2 /\
  IO.written_by tr1 =
    [(Some "../analysis/anova/similiarities_anova.txt", "F(4,36) = 0.458, p = 0.766")] /\
  IO.written_by tr2 = IO.written_by tr1.
Proof.
  intros tr1 tr2. split; [|split; [|split]].
  - intro H. vm_compute in H. discriminate H.
  - intro H. vm_compute in H. discriminate H.
  - vm_compute. reflexivity.
  - vm_compute. reflexivity.
Qed.

(** *** Stepping through a program *)

Lemma wp_do_bind {S} (step : S -> entry -> S) ok asm {A} c (f : resp c -> Prog A) s post :
  ok s c ->
  (forall x, asm s (Entry c x) -> wp step ok asm (f x) (step s (Entry c x)) post) ->
  wp step ok asm (bind (perform c) f) s post.
Proof. intros Hok Hk; simpl; split; auto. Qed.

Lemma wp_pure_bind {S} (step : S -> entry -> S) ok asm {A B} (p : Prog A)
    (f : A -> Prog B) s post :
  all_calls (fun _ => false) p ->
  (forall a, wp step ok asm (f a) s post) ->
  wp step ok asm (bind p f) s post.
Proof.
  intros Hp Hf. destruct p as [a|e|c k]; simpl in *; auto.
  destruct Hp as [Hc _]; discriminate.
Qed.

Lemma wp_pure {S} (step : S -> entry -> S) ok asm {A} (p : Prog A) s (post : S -> A -> Prop) :
  all_calls (fun _ => false) p ->
  (forall a, post s a) ->
  wp step ok asm p s post.
Proof.
  intros Hp Hf. destruct p as [a|e|c k]; simpl in *; auto.
  destruct Hp as [Hc _]; discriminate.
Qed.

(** A block whose calls neither need anything nor change the summary. *)
Lemma wp_frame {S} (step : S -> entry -> S) ok asm (q : call -> bool) {A}
    (p : Prog A) s0 :
  all_calls q p ->
  (forall c, q c = true -> ok s0 c) ->
  (forall c x, q c = true -> step s0 (Entry c x) = s0) ->
  wp step ok asm p s0 (fun s' _ => s' = s0).
Proof.
  intros Hall Hok Hstep.
  apply (wp_all_calls step ok asm q (fun s => s = s0)); auto.
  - intros s c -> Hq; auto.
  - intros s c x -> Hq; auto.
Qed.

(** *** The order of the steps *)

Section OrderOfSteps.

#[local] Abbreviation owp := (wp Order.step Order.ok Order.no_assumption).

Ltac order_ok := simpl; repeat split; try reflexivity; try discriminate; auto.

Ltac order_do :=
  apply wp_do_bind; [order_ok | intros ? _; simpl (Order.step _ _)].

Lemma order_format u :
  owp (Script.format_data u) Order.start
      (fun s _ => s = Order.mkProgress 10 false None false 0 0 false).
Proof.
  unfold Script.format_data.
  apply wp_for_fold with
    (inv := fun (rest : list (nat * string)) s (_ : list ndarray) =>
              exists n, n + List.length rest = 10 /\
              s = Order.mkProgress n false None false 0 0 false).
  - exists 0; split; reflexivity.
  - intros [index subject] rest s acc [n [Hlen ->]].
    order_do. cbn [wp List.length] in *. exists (S n). split; [lia|reflexivity].
  - intros s acc [n [Hn ->]]. simpl in Hn. f_equal. lia.
Qed.

Lemma order_compare region stim imag :
  owp (Script.compare_rdms stim imag)
      (Order.mkProgress 10 true (Some region) true 3 0 false)
      (fun s _ => s = Order.mkProgress 10 true (Some region) true 3 10 false).
Proof.
  unfold Script.compare_rdms.
  apply wp_for_fold with
    (inv := fun (rest : list string) s (_ : list pyfloat) =>
              exists n, n + List.length rest = 10 /\
              s = Order.mkProgress 10 true (Some region) true 3 n false).
  - exists 0; split; reflexivity.
  - intros subject rest s acc [n [Hlen ->]].
    unfold Script.similiarity_for_subject.
    apply wp_bind.
    apply wp_pure_bind; [apply all_calls_py_int|intro n1].
    order_do.
    apply wp_pure_bind; [apply all_calls_py_int|intro n2].
    order_do. order_do.
    apply wp_pure_bind; [apply all_calls_py_getitem|intro row].
    apply wp_pure; [apply all_calls_py_getitem|intro v].
    cbn [wp List.length] in *. exists (S n). split; [lia|reflexivity].
  - intros s acc [n [Hn ->]]. simpl in Hn. f_equal. lia.
Qed.

Lemma order_test region sims :
  owp (Script.test_significance region sims)
      (Order.mkProgress 10 true (Some region) true 3 10 false)
      (fun s _ => s = Order.mkProgress 10 true (Some region) true 3 10 true).
Proof.
  unfold Script.test_significance.
  order_do. apply wp_bind. order_do.
  apply wp_perform; [order_ok|intros ? _; simpl (Order.step _ _)].
  order_do. order_do. order_do. reflexivity.
Qed.

Lemma order_save region stim imag all sims report :
  owp (Script.save_rdms region stim imag all ;; Script.save_rsa region sims report)
      (Order.mkProgress 10 true (Some region) true 3 10 true)
      (fun s _ => s = Order.mkProgress 10 true (Some region) true 3 10 true).
Proof.
  apply wp_frame with (q := Order.saves_for region).
  - unfold Script.save_rdms, Script.matrix_of, Script.save_rsa. calls_tac.
  - intros c Hq; destruct c; try discriminate Hq; simpl in *; auto;
      apply String.eqb_eq in Hq; subst; auto.
  - intros c x Hq; destruct c; try discriminate Hq; reflexivity.
Qed.

Lemma order_region b avg acc region s :
  Order.loaded s = 10 -> Order.averaged s = true ->
  owp (Script.region_body b avg acc region) s
      (fun s' _ => s' = Order.mkProgress 10 true (Some region) true 3 10 true).
Proof.
  intros Hl Ha. destruct s as [l0 a0 r0 rd0 n0 c0 t0]; simpl in Hl, Ha; subst l0 a0.
  unfold Script.region_body.
  order_do. order_do. order_do.
  apply wp_bind. eapply wp_mono;
    [|apply wp_frame with (q := fun c => match c with SubsetObs _ _ _ => true | _ => false end)].
  2:{ unfold Script.select_conditions. calls_tac. }
  2:{ intros cc Hq; destruct cc; try discriminate Hq; exact I. }
  2:{ intros cc xx Hq; destruct cc; try discriminate Hq; reflexivity. }
  intros s1 [stimulation_data imagery_data] ->.
  order_do. order_do. order_do.
  apply wp_bind. eapply wp_mono; [|apply wp_frame with (q := is_mahalanobis_call)].
  2:{ destruct b; [|calls_tac].
      unfold Script.mahalanobis_block, Script.mahalanobis_for_subject. calls_tac. }
  2:{ intros cc Hq; destruct cc; try discriminate Hq; exact I. }
  2:{ intros cc xx Hq; destruct cc; try discriminate Hq; reflexivity. }
  intros s2 _ ->.
  apply wp_bind. eapply wp_mono; [|apply order_compare].
  intros s3 similiarities ->.
  apply wp_bind. eapply wp_mono; [|apply order_test].
  intros s4 report ->.
  apply wp_bind. eapply wp_mono;
    [|apply wp_frame with (q := Order.saves_for region)].
  2:{ unfold Script.save_rdms, Script.matrix_of. calls_tac. }
  2:{ intros cc Hq; destruct cc; try discriminate Hq; simpl in *; auto;
        apply String.eqb_eq in Hq; subst; auto. }
  2:{ intros cc xx Hq; destruct cc; try discriminate Hq; reflexivity. }
  intros s5 _ ->.
  apply wp_bind. eapply wp_mono;
    [|apply wp_frame with (q := Order.saves_for region)].
  2:{ unfold Script.save_rsa. calls_tac. }
  2:{ intros cc Hq; destruct cc; try discriminate Hq; simpl in *; auto;
        apply String.eqb_eq in Hq; subst; auto. }
  2:{ intros cc xx Hq; destruct cc; try discriminate Hq; reflexivity. }
  intros s6 _ ->. reflexivity.
Qed.

Lemma order_pipeline b u1 u2 :
  owp (Script.pipeline b u1 u2) Order.start
      (fun s _ => s = Order.mkProgress 10 true (Some "rSII_TR50_left") true 3 10 true).
Proof.
  unfold Script.pipeline.
  apply wp_bind. eapply wp_mono; [|apply order_format].
  intros s0 fd ->. order_do.
  apply wp_bind. unfold Script.regions_of_interest. cbn [for_fold].
  do 5 (apply wp_bind; eapply wp_mono; [|apply order_region; reflexivity];
        intros ? ? ->).
  cbn [wp].
  eapply wp_mono; [|apply wp_frame with (q := fun c =>
     match c with
     | NpGenfromtxt _ _ | AnovaRMFit _ _ _ _ | Print _ | OsPathExists _
     | OsMakedirs _ | OsRemove _ | OpenW _ | FileWrite _ _ | FileClose _ => true
     | _ => false
     end)].
  - intros s [] ->; reflexivity.
  - unfold Script.anova_section, Script.read_similiarities. calls_tac.
  - intros cc Hq; destruct cc; try discriminate Hq; exact I.
  - intros cc xx Hq; destruct cc; try discriminate Hq; reflexivity.
Qed.

End OrderOfSteps.

(** C4.  In every run, whatever the libraries answer and wherever the run
    stops, each call comes after the steps it depends on: the runs are
    averaged only after all ten subjects are loaded; a region's RDMs are
    computed only after loading, averaging and masking to that region; RDMs
    are compared (three RDMs computed) before the t-test (ten comparisons
    made); and a call that saves a result names the region in work and comes
    after that region's three RDMs, ten comparisons and t-test.  A run that
    reaches the end has gone through all of this for the last region. *)
Theorem C4_steps_happen_in_order :
  forall W (h : handler W) w u1 u2,
    let tr := trace_of h (Script.script u1 u2) w in
    at_every_call Order.step Order.ok Order.start tr /\
    (outcome_of h (Script.script u1 u2) w = Done tt ->
     summary Order.step Order.start tr =
       Order.mkProgress 10 true (Some "rSII_TR50_left") true 3 10 true).
Proof.
  intros W h w u1 u2 tr.
  destruct (@wp_sound _ Order.step Order.ok Order.no_assumption _ _ h
              (Script.script u1 u2) w _ _ (order_pipeline true u1 u2)
              (assumed_trivial _ _ _)) as [Hcalls Hdone].
  split; [exact Hcalls|]. intro Ho. exact (Hdone tt Ho).
Qed.

Lemma C4_witness :
  let tr := trace_of Model.lib (Script.script Model.uninit_data Model.uninit_sim)
              Model.world0 in
  Order.ok (summary Order.step Order.start (firstn 144 tr))
    (SaveRdmResults "../analysis/" "rPSC_2" "stimulation" "euclidean" (Array 66) "001").
Proof.
  intro tr.
  exact (proj1 (C4_steps_happen_in_order Model.lib Model.world0
                  Model.uninit_data Model.uninit_sim)
           (firstn 144 tr)
           (SaveRdmResults "../analysis/" "rPSC_2" "stimulation" "euclidean"
              (Array 66) "001")
           tt (skipn 145 tr) ltac:(vm_compute; reflexivity)).
Defined.

(** *** Facts about the script's own bookkeeping *)

Lemma subjects_numbered k subject rest :
  skipn k Script.subjects = subject :: rest ->
  py_int subject = Ret (Z.of_nat k + 1)%Z /\
  nth_error Script.subjects k = Some subject /\
  rest = skipn (S k) Script.subjects.
Proof.
  intro H.
  do 10 (destruct k as [|k];
         [simpl in H; inversion H; subst; repeat split; reflexivity|]).
  simpl in H. destruct k; discriminate H.
Qed.

Lemma py_getitem_nat {A} (l : list A) (n : nat) :
  py_getitem l (Z.of_nat n) =
  match nth_error l n with
  | Some a => Ret a
  | None => Raise "IndexError"
  end.
Proof.
  unfold py_getitem.
  destruct (Z.ltb_spec (Z.of_nat n) 0) as [Hneg|_]; [lia|].
  rewrite Nat2Z.id.
  destruct (Z.leb_spec 0 (Z.of_nat n)) as [_|Hneg]; [|lia]. simpl.
  destruct (Z.ltb_spec (Z.of_nat n) (Z.of_nat (List.length l))) as [Hlt|Hge].
  - reflexivity.
  - destruct (nth_error l n) eqn:Hn; [|reflexivity].
    assert (n < List.length l) by (apply nth_error_Some; congruence). lia.
Qed.

Lemma wp_getitem_nat {S} (step : S -> entry -> S) ok asm {A B} (l : list A) (n : nat)
    (f : A -> Prog B) s post :
  (forall a, nth_error l n = Some a -> wp step ok asm (f a) s post) ->
  wp step ok asm (bind (py_getitem l (Z.of_nat n)) f) s post.
Proof.
  intro H. rewrite py_getitem_nat.
  destruct (nth_error l n) as [a|]; simpl; auto.
Qed.

Lemma wp_getitem_nat_end {S} (step : S -> entry -> S) ok asm {A} (l : list A) (n : nat)
    s (post : S -> A -> Prop) :
  (forall a, nth_error l n = Some a -> post s a) ->
  wp step ok asm (py_getitem l (Z.of_nat n)) s post.
Proof.
  intro H. rewrite py_getitem_nat.
  destruct (nth_error l n) as [a|]; simpl; auto.
Qed.

(** *** The flow of values through one region *)

Lemma same_values_stim :
  Flow.same_values Script.stimulation_conditions Script.stimulation_conditions = true.
Proof. reflexivity. Qed.

Lemma same_values_imag_stim :
  Flow.same_values Script.imagery_conditions Script.stimulation_conditions = false.
Proof. reflexivity. Qed.

Lemma same_values_imag :
  Flow.same_values Script.imagery_conditions Script.imagery_conditions = true.
Proof. reflexivity. Qed.

Ltac flow_simpl :=
  cbn [Flow.step Flow.regions Flow.mask Flow.datasets Flow.stim_data Flow.imag_data
       Flow.rdms Flow.chain Flow.mahalanobis Flow.mahalanobis_total Flow.subsets
       Flow.sims fst snd app].

Ltac flow_ok :=
  unfold Flow.ok;
  cbn [Flow.regions_ok Flow.compare_ok Flow.mahalanobis_ok Flow.save_ok
       Flow.regions Flow.mask Flow.datasets Flow.stim_data Flow.imag_data
       Flow.rdms Flow.chain Flow.mahalanobis Flow.mahalanobis_total Flow.subsets
       Flow.sims fst snd];
  repeat match goal with |- _ /\ _ => split end; try exact I.

Ltac flow_do :=
  apply wp_do_bind; [flow_ok | intros ? _; flow_simpl].

Section FlowFacts.

#[local] Abbreviation fwp := (wp Flow.step Flow.ok Flow.no_assumption).

Lemma flow_select R m D T :
  fwp (Script.select_conditions D)
      (Flow.mkFlow R (Some m) D [] [] [] [] 0 T [] [])
      (fun s acc =>
         List.length (fst acc) = List.length D /\
         List.length (snd acc) = List.length D /\
         s = Flow.mkFlow R (Some m) D (fst acc) (snd acc) [] [] 0 T [] []).
Proof.
  unfold Script.select_conditions.
  apply wp_for_fold with
    (inv := fun (rest : list Dataset) s (acc : list Dataset * list Dataset) =>
              exists done,
                D = (done ++ rest)%list /\
                List.length (fst acc) = List.length done /\
                List.length (snd acc) = List.length done /\
                s = Flow.mkFlow R (Some m) D (fst acc) (snd acc) [] [] 0 T [] []).
  - exists []; repeat split; reflexivity.
  - intros dataset rest s [stim imag] [done [HD [Hs [Hi ->]]]].
    cbn [fst snd] in *.
    assert (Hnth : forall n, n = List.length done -> nth_error D n = Some dataset).
    { intros n ->. rewrite HD, nth_error_app2, Nat.sub_diag by lia. reflexivity. }
    flow_do.
    { reflexivity. }
    { left; split; [reflexivity|]. apply Hnth; exact Hs. }
    rewrite same_values_stim.
    flow_do.
    { reflexivity. }
    { right; split; [reflexivity|]. apply Hnth; exact Hi. }
    rewrite same_values_imag_stim, same_values_imag.
    cbn [wp fst snd]. exists (done ++ [dataset])%list.
    rewrite <- app_assoc, !length_app; simpl. repeat split; auto; lia.
  - intros s acc [done [HD [Hs [Hi ->]]]].
    rewrite app_nil_r in HD; subst done. auto.
Qed.

Lemma flow_mahalanobis R m D stim imag rd T :
  fwp (Script.mahalanobis_block m stim)
      (Flow.mkFlow R (Some m) D stim imag rd [] 0 T [] [])
      (fun s _ => s = Flow.mkFlow R (Some m) D stim imag rd [] 10 (T + 10) [] []).
Proof.
  unfold Script.mahalanobis_block.
  apply wp_for_fold with
    (inv := fun (rest : list string) s (_ : list RDMs) =>
              exists k, k <= 10 /\ rest = skipn k Script.subjects /\
                s = Flow.mkFlow R (Some m) D stim imag rd [] k (T + k) [] []).
  - exists 0. rewrite Nat.add_0_r. repeat split; auto. lia.
  - intros subject rest s acc [k [Hk [Hrest ->]]].
    symmetry in Hrest. destruct (subjects_numbered _ Hrest) as [Hint [Hnth Hrest']].
    assert (Hlt : k < 10).
    { change 10 with (List.length Script.subjects). apply nth_error_Some. congruence. }
    apply wp_bind. unfold Script.mahalanobis_for_subject.
    do 6 flow_do.
    rewrite Hint. cbn [bind].
    replace (Z.of_nat k + 1 - 1)%Z with (Z.of_nat k) by lia.
    apply wp_getitem_nat. intros dataset Hds.
    apply wp_perform.
    + flow_ok; try reflexivity.
      exists subject, m. do 5 eexists. repeat split; eauto.
    + intros rdm _. flow_simpl. cbn [wp].
      exists (S k). repeat split; auto. do 2 f_equal. lia.
  - intros s acc [k [Hk [Hrest ->]]].
    assert (Hlen : List.length (skipn k Script.subjects) = 0) by (rewrite <- Hrest; reflexivity).
    rewrite length_skipn in Hlen.
    change (List.length Script.subjects) with 10 in Hlen.
    assert (k = 10) by lia. subst k. reflexivity.
Qed.

Lemma flow_compare R m D stim imag a b c T :
  fwp (Script.compare_rdms a b)
      (Flow.mkFlow R (Some m) D stim imag [a; b; c] [] 10 T [] [])
      (fun s similiarities =>
         List.length similiarities = 10 /\
         s = Flow.mkFlow R (Some m) D stim imag [a; b; c] [] 10 T [] similiarities).
Proof.
  unfold Script.compare_rdms.
  apply wp_for_fold with
    (inv := fun (rest : list string) s (acc : list pyfloat) =>
              exists k, k <= 10 /\ rest = skipn k Script.subjects /\
                List.length acc = k /\
                s = Flow.mkFlow R (Some m) D stim imag [a; b; c] [] 10 T [] acc).
  - exists 0. repeat split; auto. lia.
  - intros subject rest s acc [k [Hk [Hrest [Hacc ->]]]].
    symmetry in Hrest. destruct (subjects_numbered _ Hrest) as [Hint [Hnth Hrest']].
    assert (Hlt : k < 10).
    { change 10 with (List.length Script.subjects). apply nth_error_Some. congruence. }
    apply wp_bind. unfold Script.similiarity_for_subject.
    rewrite Hint. cbn [bind].
    flow_do. flow_do.
    apply wp_do_bind.
    { flow_ok.
      - exists a, b, c, (Z.of_nat k + 1)%Z. split; reflexivity.
      - reflexivity.
      - exists a, b, c, subject, (Z.of_nat k + 1)%Z.
        rewrite Hacc. repeat split; auto. }
    intros similiarity _. flow_simpl.
    change 0%Z with (Z.of_nat 0).
    apply wp_getitem_nat. intros row Hrow.
    apply wp_getitem_nat_end. intros v Hv.
    destruct similiarity as [|row' rows]; [discriminate Hrow|].
    simpl in Hrow; inversion Hrow; subst row'.
    destruct row as [|v' row]; [discriminate Hv|].
    simpl in Hv; inversion Hv; subst v'.
    cbn [wp Flow.corner]. exists (S k). rewrite length_app; simpl.
    repeat split; auto; lia.
  - intros s acc [k [Hk [Hrest [Hacc ->]]]].
    assert (Hlen : List.length (skipn k Script.subjects) = 0) by (rewrite <- Hrest; reflexivity).
    rewrite length_skipn in Hlen.
    change (List.length Script.subjects) with 10 in Hlen.
    split; [lia|reflexivity].
Qed.

Lemma flow_test region s similiarities :
  Flow.sims s = similiarities -> List.length similiarities = 10 ->
  fwp (Script.test_significance region similiarities) s (fun s' _ => s' = s).
Proof.
  intros Hs Hl. unfold Script.test_significance.
  apply wp_do_bind; [flow_ok; auto|intros significance _; flow_simpl].
  apply wp_bind. flow_do.
  apply wp_perform; [flow_ok|intros mean_s _; flow_simpl].
  do 3 flow_do. reflexivity.
Qed.

Lemma flow_save_rdms region s a b c :
  fwp (Script.save_rdms region a b c) s (fun s' _ => s' = s).
Proof.
  apply wp_frame with (q := fun c => match c with
                                     | GetMatrices _ | SaveRdmResults _ _ _ _ _ _ => true
                                     | _ => false
                                     end).
  - unfold Script.save_rdms, Script.matrix_of. calls_tac.
  - intros cc Hq; destruct cc; try discriminate Hq; flow_ok.
  - intros cc xx Hq; destruct cc; try discriminate Hq; reflexivity.
Qed.

Lemma flow_save_rsa region s similiarities report :
  Flow.sims s = similiarities -> List.length similiarities = 10 ->
  nth_error Script.regions_of_interest (List.length (Flow.regions s) - 1) = Some region ->
  fwp (Script.save_rsa region similiarities report) s (fun s' _ => s' = s).
Proof.
  intros Hs Hl Hr. unfold Script.save_rsa.
  apply wp_do_bind; [flow_ok; auto|intros [] _; flow_simpl].
  apply wp_perform; [flow_ok|intros [] _; flow_simpl]. reflexivity.
Qed.

Lemma flow_region avg acc region s R T :
  Flow.regions s = R -> Flow.mahalanobis_total s = T ->
  nth_error Script.regions_of_interest (List.length R) = Some region ->
  fwp (Script.region_body true avg acc region) s
      (fun s' _ => Flow.regions s' = (R ++ [region])%list /\
                   Flow.mahalanobis_total s' = T + 10 /\
                   List.length (Flow.sims s') = 10).
Proof.
  intros HR HT Hnth.
  destruct s as [R0 m0 D0 st0 im0 rd0 ch0 mh0 T0 sb0 sm0].
  cbn [Flow.regions Flow.mahalanobis_total] in HR, HT. subst R0 T0.
  unfold Script.region_body.
  apply wp_do_bind; [flow_ok; exact Hnth|intros m _; flow_simpl].
  flow_do.
  apply wp_do_bind; [flow_ok|intros D _; flow_simpl].
  apply wp_bind. eapply wp_mono; [|apply flow_select].
  intros s1 [stim imag] [Hls [Hli ->]]. cbn [fst snd] in *.
  apply wp_do_bind; [flow_ok; auto; reflexivity|intros a _; flow_simpl].
  apply wp_do_bind; [flow_ok; auto; reflexivity|intros b _; flow_simpl].
  apply wp_do_bind; [flow_ok; auto; reflexivity|intros c _; flow_simpl].
  apply wp_bind. apply wp_bind.
  eapply wp_mono; [|apply flow_mahalanobis].
  intros s2 _ ->. cbn [wp].
  apply wp_bind. eapply wp_mono; [|apply flow_compare].
  intros s3 similiarities [Hlen ->].
  apply wp_bind. eapply wp_mono; [|apply flow_test; [reflexivity|exact Hlen]].
  intros s4 report ->.
  apply wp_bind. eapply wp_mono; [|apply flow_save_rdms].
  intros s5 _ ->.
  apply wp_bind. eapply wp_mono; [|apply flow_save_rsa; [reflexivity|exact Hlen|]].
  2:{ cbn [Flow.regions]. rewrite length_app, Nat.add_sub. exact Hnth. }
  intros s6 _ ->. cbn [wp Flow.regions Flow.mahalanobis_total Flow.sims]. auto.
Qed.

Lemma flow_pipeline u1 u2 :
  fwp (Script.pipeline true u1 u2) Flow.start
      (fun s _ => Flow.regions s = Script.regions_of_interest /\
                  Flow.mahalanobis_total s = 50 /\
                  List.length (Flow.sims s) = 10).
Proof.
  unfold Script.pipeline.
  apply wp_bind. eapply wp_mono;
    [|apply wp_frame with (q := fun c => match c with
                                         | FormatDataForSubject _ _ _ _ => true
                                         | _ => false
                                         end)].
  2:{ unfold Script.format_data. calls_tac. }
  2:{ intros cc Hq; destruct cc; try discriminate Hq; flow_ok. }
  2:{ intros cc xx Hq; destruct cc; try discriminate Hq; reflexivity. }
  intros s0 fd ->. flow_do.
  apply wp_bind. unfold Script.regions_of_interest. cbn [for_fold].
  apply wp_bind; eapply wp_mono;
    [|apply flow_region with (R := []) (T := 0); reflexivity].
  intros s1 acc1 [HR1 [HT1 HS1]].
  apply wp_bind; eapply wp_mono; [|eapply flow_region; [exact HR1|exact HT1|reflexivity]].
  intros s2 acc2 [HR2 [HT2 HS2]].
  apply wp_bind; eapply wp_mono; [|eapply flow_region; [exact HR2|exact HT2|reflexivity]].
  intros s3 acc3 [HR3 [HT3 HS3]].
  apply wp_bind; eapply wp_mono; [|eapply flow_region; [exact HR3|exact HT3|reflexivity]].
  intros s4 acc4 [HR4 [HT4 HS4]].
  apply wp_bind; eapply wp_mono; [|eapply flow_region; [exact HR4|exact HT4|reflexivity]].
  intros s5 acc5 [HR5 [HT5 HS5]]. cbn [wp].
  eapply wp_mono; [|apply wp_frame with (q := fun c =>
     match c with
     | NpGenfromtxt _ _ | AnovaRMFit _ _ _ _ | Print _ | OsPathExists _
     | OsMakedirs _ | OsRemove _ | OpenW _ | FileWrite _ _ | FileClose _ => true
     | _ => false
     end)].
  - intros s [] ->. split; [exact HR5|split; [exact HT5|exact HS5]].
  - unfold Script.anova_section, Script.read_similiarities. calls_tac.
  - intros cc Hq; destruct cc; try discriminate Hq; flow_ok.
  - intros cc xx Hq; destruct cc; try discriminate Hq; reflexivity.
Qed.

End FlowFacts.

Lemma at_every_call_weaken {S} (step : S -> entry -> S) (ok ok' : S -> call -> Prop) s tr :
  (forall s' c, ok s' c -> ok' s' c) ->
  at_every_call step ok s tr -> at_every_call step ok' s tr.
Proof. intros Himp H hist c x rest Heq. apply Himp. exact (H hist c x rest Heq). Qed.

Lemma flow_run {W} (h : handler W) w u1 u2 :
  let tr := trace_of h (Script.script u1 u2) w in
  at_every_call Flow.step Flow.ok Flow.start tr /\
  (outcome_of h (Script.script u1 u2) w = Done tt ->
   Flow.regions (Flow.after tr) = Script.regions_of_interest /\
   Flow.mahalanobis_total (Flow.after tr) = 50 /\
   List.length (Flow.sims (Flow.after tr)) = 10).
Proof.
  intro tr.
  destruct (@wp_sound _ Flow.step Flow.ok Flow.no_assumption _ _ h
              (Script.script u1 u2) w _ _ (flow_pipeline u1 u2)
              (assumed_trivial _ _ _)) as [Hcalls Hdone].
  split; [exact Hcalls|]. intro Ho. exact (Hdone tt Ho).
Qed.







(** *** Saving the similarities and reading them back *)

Section StoreFacts.

#[local] Abbreviation swp := (wp Store.step Store.ok Store.roundtrip).

Ltac store_do :=
  apply wp_do_bind; [cbn [Store.ok]; exact I | intros ? _; cbn [Store.step]].

Lemma store_compare a b s0 :
  swp (Script.compare_rdms a b) s0
      (fun s sims => s = s0 /\ List.length sims = 10).
Proof.
  unfold Script.compare_rdms.
  apply wp_for_fold with
    (inv := fun (rest : list string) s (acc : list pyfloat) =>
              List.length acc + List.length rest = 10 /\ s = s0).
  - split; reflexivity.
  - intros subject rest s acc [Hlen ->].
    apply wp_bind. eapply wp_mono;
      [|apply wp_frame with (q := fun c => match c with
                                           | RdmSubset _ _ _ | RdmCompare _ _ _ => true
                                           | _ => false
                                           end)].
    + intros s' v ->. cbn [wp]. rewrite length_app. simpl in *. split; [lia|reflexivity].
    + unfold Script.similiarity_for_subject. calls_tac.
    + intros cc Hq; destruct cc; try discriminate Hq; exact I.
    + intros cc xx Hq; destruct cc; try discriminate Hq; reflexivity.
  - intros s acc [Hlen ->]. simpl in Hlen. split; [reflexivity|lia].
Qed.

Lemma store_region b avg acc region SV :
  swp (Script.region_body b avg acc region) (Store.mkStore SV [])
      (fun s _ => exists v, List.length v = 10 /\
                            s = Store.mkStore (SV ++ [(region, v)]) []).
Proof.
  unfold Script.region_body.
  do 3 store_do.
  apply wp_bind. eapply wp_mono;
    [|apply wp_frame with (q := fun c => match c with SubsetObs _ _ _ => true | _ => false end)].
  2:{ unfold Script.select_conditions. calls_tac. }
  2:{ intros cc Hq; destruct cc; try discriminate Hq; exact I. }
  2:{ intros cc xx Hq; destruct cc; try discriminate Hq; reflexivity. }
  intros s1 [stimulation_data imagery_data] ->.
  do 3 store_do.
  apply wp_bind. eapply wp_mono; [|apply wp_frame with (q := is_mahalanobis_call)].
  2:{ destruct b; [|calls_tac].
      unfold Script.mahalanobis_block, Script.mahalanobis_for_subject. calls_tac. }
  2:{ intros cc Hq; destruct cc; try discriminate Hq; exact I. }
  2:{ intros cc xx Hq; destruct cc; try discriminate Hq; reflexivity. }
  intros s2 _ ->.
  apply wp_bind. eapply wp_mono; [|apply store_compare].
  intros s3 similiarities [-> Hlen].
  apply wp_bind. eapply wp_mono;
    [|apply wp_frame with (q := fun c => match c with
                                         | Ttest1samp _ _ _ | NpMean _ | StrRound3 _
                                         | Print _ => true
                                         | _ => false
                                         end)].
  2:{ unfold Script.test_significance. calls_tac. }
  2:{ intros cc Hq; destruct cc; try discriminate Hq; exact I. }
  2:{ intros cc xx Hq; destruct cc; try discriminate Hq; reflexivity. }
  intros s4 report ->.
  apply wp_bind. eapply wp_mono;
    [|apply wp_frame with (q := fun c => match c with
                                         | GetMatrices _ | SaveRdmResults _ _ _ _ _ _ => true
                                         | _ => false
                                         end)].
  2:{ unfold Script.save_rdms, Script.matrix_of. calls_tac. }
  2:{ intros cc Hq; destruct cc; try discriminate Hq; exact I. }
  2:{ intros cc xx Hq; destruct cc; try discriminate Hq; reflexivity. }
  intros s5 _ ->.
  apply wp_bind. unfold Script.save_rsa.
  store_do. change (String.eqb Script.method "corr") with true. cbn iota.
  cbn [Store.saved Store.reads].
  apply wp_perform; [exact I|intros [] _; cbn [Store.step]].
  cbn [wp]. exists similiarities. split; [exact Hlen|reflexivity].
Qed.

Lemma floats_eqb_eq a b : Store.floats_eqb a b = true -> a = b.
Proof.
  revert b; induction a as [|[x] a IH]; intros [|[y] b] H; simpl in H;
    try discriminate H; [reflexivity|].
  apply andb_true_iff in H. destruct H as [Hx Hab].
  apply N.eqb_eq in Hx. subst y. rewrite (IH b Hab). reflexivity.
Qed.

Lemma roundtrip_pick SV RD path delimiter parsed region v :
  In (region, v) SV -> path = Script.rsa_corr_path region ->
  Store.roundtrip (Store.mkStore SV RD) (Entry (NpGenfromtxt path delimiter) parsed) ->
  removelast parsed = v.
Proof.
  intros Hin -> H. unfold Store.roundtrip, Store.roundtrip_b in H.
  cbn [Store.saved] in H. rewrite forallb_forall in H.
  specialize (H _ Hin). cbn [fst snd] in H. rewrite String.eqb_refl in H.
  apply andb_true_iff in H. apply floats_eqb_eq. apply H.
Qed.

Lemma assign_slice_filled {A} (filled g v : list A) k :
  List.length filled = k * List.length Script.subjects ->
  List.length v = 10 -> 10 <= List.length g ->
  assign_slice (filled ++ g) (k * List.length Script.subjects)
    (k * List.length Script.subjects + List.length Script.subjects) v =
  Ret ((filled ++ v) ++ skipn 10 g)%list.
Proof.
  intros Hf Hv Hg. unfold assign_slice.
  change (List.length Script.subjects) with 10 in *.
  replace (k * 10 + 10 - k * 10) with 10 by lia.
  rewrite Hv. cbn [Nat.eqb]. f_equal.
  rewrite firstn_app, <- Hf, Nat.sub_diag, firstn_all. cbn [firstn].
  rewrite app_nil_r, skipn_app, skipn_all2 by lia.
  replace (List.length filled + 10 - List.length filled) with 10 by lia.
  rewrite <- app_assoc. reflexivity.
Qed.

Ltac slice_side :=
  repeat rewrite ?length_app, ?length_skipn;
  unfold np_empty; rewrite ?length_map, ?length_seq;
  change (List.length Script.subjects) with 10; cbn [List.length]; lia.

Ltac read_iter r v :=
  apply wp_bind; apply wp_do_bind;
  [ cbn [Store.ok Store.reads Store.saved List.length app]; split; [reflexivity|];
    exists r; repeat split; first [reflexivity | simpl; auto 10]
  | let parsed := fresh "parsed" in
    let Hasm := fresh "Hasm" in
    intros parsed Hasm; cbn [Store.step Store.saved Store.reads];
    let Hrt := fresh "Hrt" in
    assert (Hrt : removelast parsed = v)
      by (eapply roundtrip_pick with (region := r);
          [|reflexivity|exact Hasm]; simpl; auto 10);
    rewrite Hrt;
    rewrite assign_slice_filled by slice_side; cbn [wp] ].

Lemma store_read u v1 v2 v3 v4 v5 :
  List.length v1 = 10 -> List.length v2 = 10 -> List.length v3 = 10 ->
  List.length v4 = 10 -> List.length v5 = 10 ->
  let SV := [("rPSC_2", v1); ("rPSC_1", v2); ("rPSC_3b", v3);
             ("rSII_TR50_right", v4); ("rSII_TR50_left", v5)] in
  swp (Script.read_similiarities u) (Store.mkStore SV [])
      (fun s all =>
         all = (v1 ++ v2 ++ v3 ++ v4 ++ v5)%list /\
         Store.saved s = SV /\
         map fst (Store.reads s) = map Script.rsa_corr_path Script.regions_of_interest /\
         map (fun rd => removelast (snd rd)) (Store.reads s) = map snd SV).
Proof.
  intros H1 H2 H3 H4 H5 SV. subst SV.
  unfold Script.read_similiarities, enumerate, Script.regions_of_interest.
  cbn [List.length seq combine for_fold].
  match goal with
  | |- context [assign_slice (np_empty u ?n)] =>
      change (np_empty u n) with (([] : list pyfloat) ++ np_empty u n)%list
  end.
  read_iter "rPSC_2" v1.
  read_iter "rPSC_1" v2.
  read_iter "rPSC_3b" v3.
  read_iter "rSII_TR50_right" v4.
  read_iter "rSII_TR50_left" v5.
  cbn [Store.saved Store.reads map fst snd app].
  repeat split.
  - match goal with
    | |- (_ ++ ?g)%list = _ => replace g with (@nil pyfloat) by reflexivity
    end.
    rewrite app_nil_r, <- !app_assoc. reflexivity.
  - congruence.
Qed.

Lemma store_pipeline b u1 u2 :
  swp (Script.pipeline b u1 u2) Store.start
      (fun s _ =>
         map fst (Store.saved s) = Script.regions_of_interest /\
         map fst (Store.reads s) = map Script.rsa_corr_path Script.regions_of_interest /\
         map (fun rd => removelast (snd rd)) (Store.reads s) = map snd (Store.saved s)).
Proof.
  unfold Script.pipeline.
  apply wp_bind. eapply wp_mono;
    [|apply wp_frame with (q := fun c => match c with
                                         | FormatDataForSubject _ _ _ _ => true
                                         | _ => false
                                         end)].
  2:{ unfold Script.format_data. calls_tac. }
  2:{ intros cc Hq; destruct cc; try discriminate Hq; exact I. }
  2:{ intros cc xx Hq; destruct cc; try discriminate Hq; reflexivity. }
  intros s0 fd ->. store_do.
  apply wp_bind. unfold Script.regions_of_interest. cbn [for_fold].
  apply wp_bind; eapply wp_mono; [|apply store_region].
  intros s1 acc1 [v1 [H1 ->]]. cbn [app].
  apply wp_bind; eapply wp_mono; [|apply store_region].
  intros s2 acc2 [v2 [H2 ->]]. cbn [app].
  apply wp_bind; eapply wp_mono; [|apply store_region].
  intros s3 acc3 [v3 [H3 ->]]. cbn [app].
  apply wp_bind; eapply wp_mono; [|apply store_region].
  intros s4 acc4 [v4 [H4 ->]]. cbn [app].
  apply wp_bind; eapply wp_mono; [|apply store_region].
  intros s5 acc5 [v5 [H5 ->]]. cbn [app wp].
  unfold Script.anova_section.
  apply wp_bind. eapply wp_mono; [|apply store_read; assumption].
  intros s all [-> [Hsv [Hrd Hrt]]].
  apply wp_do_bind.
  { cbn [Store.ok col_Similiarity]. rewrite Hsv, Hrd, Hrt.
    repeat split; try reflexivity.
    - repeat constructor; assumption.
    - cbn [map snd List.concat app]. rewrite app_nil_r. reflexivity. }
  intros anova_results _. cbn [Store.step].
  eapply wp_mono; [|apply wp_frame with (q := fun c =>
     match c with
     | Print _ | OsPathExists _ | OsMakedirs _ | OsRemove _ | OpenW _
     | FileWrite _ _ | FileClose _ => true
     | _ => false
     end)].
  - intros s' [] ->. rewrite Hsv, Hrd, Hrt. repeat split; reflexivity.
  - calls_tac.
  - intros cc Hq; destruct cc; try discriminate Hq; exact I.
  - intros cc xx Hq; destruct cc; try discriminate Hq; reflexivity.
Qed.

End StoreFacts.

Lemma roundtrips_assumed s tr :
  Store.roundtrips s tr = true -> assumed Store.step Store.roundtrip s tr.
Proof.
  revert s; induction tr as [|e tr IH]; intros s H; simpl in *; [exact I|].
  apply andb_true_iff in H. destruct H as [He Htr]. split; [exact He|apply IH; exact Htr].
Qed.

(** C8.  Suppose the text files round-trip exactly: whenever
    stim_imag_rsa_corr.txt of a region is parsed, the result is the list
    saved for that region followed by one more element.  Then in every run:
    the files are read for the five regions in order, each after the values
    of its region were saved; the values saved for a region are the ten
    similarities computed for it; and the 'Similiarity' column handed to the
    ANOVA (with 'Subject' as subject and 'ROIs' as within-factor) is, region
    after region, the parsed list without its last element, which is the
    list of ten values that was saved. *)
Theorem C8_anova_values_are_the_saved_similarities :
  forall W (h : handler W) w u1 u2,
    let tr := trace_of h (Script.script u1 u2) w in
    Store.roundtrips Store.start tr = true ->
    at_every_call Store.step Store.ok Store.start tr /\
    at_every_call Flow.step Flow.save_ok Flow.start tr /\
    (outcome_of h (Script.script u1 u2) w = Done tt ->
     map fst (Store.saved (Store.after tr)) = Script.regions_of_interest /\
     map fst (Store.reads (Store.after tr)) =
       map Script.rsa_corr_path Script.regions_of_interest /\
     map (fun rd => removelast (snd rd)) (Store.reads (Store.after tr)) =
       map snd (Store.saved (Store.after tr))).
Proof.
  intros W h w u1 u2 tr Hrt.
  destruct (@wp_sound _ Store.step Store.ok Store.roundtrip _ _ h
              (Script.script u1 u2) w _ _ (store_pipeline true u1 u2)
              (roundtrips_assumed _ _ Hrt)) as [Hcalls Hdone].
  split; [exact Hcalls|]. split.
  - destruct (flow_run h w u1 u2) as [Hflow _].
    eapply at_every_call_weaken; [|exact Hflow]. intros s c Hok; apply Hok.
  - intro Ho. exact (Hdone tt Ho).
Qed.

Lemma C8_witness :
  let tr := trace_of Model.lib (Script.script Model.uninit_data Model.uninit_sim)
              Model.world0 in
  Store.ok (Store.after (firstn 986 tr))
    (AnovaRMFit
       (mkDataFrame
          (np_tile (map Z.of_nat (py_range 1 11)) 5)
          (np_repeat [1; 2; 3; 4; 5]%Z 10)
          (flat_map (fun i => map (fun j => Float64 (N.of_nat (93 + 110 * i + 4 * j)))
                                  (seq 0 10))
                    (seq 0 5)))
       "Similiarity" "Subject" ["ROIs"]).
Proof.
  intro tr.
  destruct (C8_anova_values_are_the_saved_similarities Model.lib Model.world0
              Model.uninit_data Model.uninit_sim ltac:(vm_compute; reflexivity))
    as [H _].
  exact (H (firstn 986 tr)
           (AnovaRMFit
              (mkDataFrame
                 (np_tile (map Z.of_nat (py_range 1 11)) 5)
                 (np_repeat [1; 2; 3; 4; 5]%Z 10)
                 (flat_map (fun i => map (fun j => Float64 (N.of_nat (93 + 110 * i + 4 * j)))
                                         (seq 0 10))
                           (seq 0 5)))
              "Similiarity" "Subject" ["ROIs"])
           (AnovaObj 286) (skipn 987 tr)
           ltac:(vm_compute; reflexivity)).
Defined.

(** ** Further properties of the script *)

Lemma all_results_bind {A B} (Q : A -> Prop) (R : B -> Prop) (p : Prog A) (f : A -> Prog B) :
  all_results Q p -> (forall a, Q a -> all_results R (f a)) -> all_results R (bind p f).
Proof.
  intros Hp Hf; induction p as [a|e|c k IH]; simpl in *; auto.
Qed.

Lemma all_results_for_fold {A St} (inv : list A -> St -> Prop)
    (body : St -> A -> Prog St) l s :
  inv l s ->
  (forall a rest t, inv (a :: rest) t -> all_results (inv rest) (body t a)) ->
  all_results (inv []) (for_fold l body s).
Proof.
  intros Hinv Hbody; revert s Hinv.
  induction l as [|a l IH]; intros s Hinv; simpl; [exact Hinv|].
  eapply all_results_bind; [apply Hbody; exact Hinv|].
  intros t Ht; apply IH; exact Ht.
Qed.

Lemma all_results_mono {A} (Q R : A -> Prop) (p : Prog A) :
  (forall a, Q a -> R a) -> all_results Q p -> all_results R p.
Proof.
  intro H; induction p as [a|e|c k IH]; simpl; auto.
Qed.

Lemma wp_results {S} (step : S -> entry -> S) ok asm {A} (Q : A -> Prop)
    (p : Prog A) s (post : S -> A -> Prop) :
  all_results Q p -> wp step ok asm p s post ->
  wp step ok asm p s (fun s' a => post s' a /\ Q a).
Proof.
  revert s; induction p as [a|e|c k IH]; intros s HQ Hwp; simpl in *; auto.
  destruct Hwp as [Hok Hk]; split; auto.
Qed.

Lemma all_results_getitem_nat {A} (l : list A) (n : nat) :
  all_results (fun a => nth_error l n = Some a) (py_getitem l (Z.of_nat n)).
Proof.
  rewrite py_getitem_nat. destruct (nth_error l n); simpl; auto.
Qed.

(** *** Loading and reduction *)

Section LoadFacts.

#[local] Abbreviation lwp := (wp Load.step Load.ok Load.no_assumption).

Ltac load_simpl :=
  cbn [Load.step Load.folders Load.blocks Load.averaged Load.mask Load.cut app].

Ltac load_iter subject :=
  apply wp_bind; apply wp_do_bind;
  [ cbn [Load.ok Load.folders List.length app]; repeat split;
    exists subject; split; reflexivity
  | intros ? _; load_simpl; cbn [wp set_slot] ].

Lemma load_format u :
  lwp (Script.format_data u) Load.start
      (fun s fd =>
         List.length fd = 10 /\
         exists folders, s = Load.mkLoading folders fd None None None).
Proof.
  unfold Script.format_data, enumerate, Script.subjects, np_empty, Load.start.
  cbn [List.length seq combine for_fold map].
  load_iter "001". load_iter "002". load_iter "003". load_iter "004".
  load_iter "005". load_iter "006". load_iter "007". load_iter "008".
  load_iter "009". load_iter "010".
  split; [reflexivity|]. eexists. reflexivity.
Qed.

Lemma load_region b avg acc region s :
  Load.averaged s = Some avg ->
  lwp (Script.region_body b avg acc region) s
      (fun s' _ => Load.averaged s' = Some avg /\ Load.blocks s' = Load.blocks s).
Proof.
  intro Ha. destruct s as [F B A M C]. cbn [Load.averaged] in Ha. subst A.
  unfold Script.region_body.
  apply wp_do_bind; [reflexivity|intros m _; load_simpl].
  apply wp_do_bind;
    [cbn [Load.ok Load.averaged Load.mask]; split; [reflexivity|eexists; reflexivity]
    |intros d _; load_simpl].
  apply wp_do_bind;
    [cbn [Load.ok Load.cut]; repeat split|intros D _; load_simpl].
  eapply wp_mono;
    [|apply wp_frame with (q := fun c =>
        match c with
        | FormatDataForSubject _ _ _ _ | AverageOverRuns _
        | GetVoxelsFromRegionOfInterest _ _ | RearrangeArray _ _
        | CreateRsaDatasets _ _ _ => false
        | _ => true
        end)].
  - intros s' _ ->. split; reflexivity.
  - unfold Script.select_conditions, Script.mahalanobis_block,
      Script.mahalanobis_for_subject, Script.compare_rdms,
      Script.similiarity_for_subject, Script.test_significance,
      Script.save_rdms, Script.matrix_of, Script.save_rsa.
    calls_tac.
  - intros cc Hq; destruct cc; try discriminate Hq; exact I.
  - intros cc xx Hq; destruct cc; try discriminate Hq; reflexivity.
Qed.

Lemma load_pipeline b u1 u2 :
  lwp (Script.pipeline b u1 u2) Load.start
      (fun s _ => List.length (Load.blocks s) = 10 /\ Load.averaged s <> None).
Proof.
  unfold Script.pipeline.
  apply wp_bind. eapply wp_mono; [|apply load_format].
  intros s0 fd [Hlen [folders ->]].
  apply wp_do_bind; [cbn [Load.ok Load.blocks]; split; [reflexivity|exact Hlen]
                    |intros avg _; load_simpl].
  apply wp_bind.
  apply wp_for_fold with
    (inv := fun (_ : list string) s (_ : Script.rdm_lists) =>
              Load.averaged s = Some avg /\ Load.blocks s = fd).
  - split; reflexivity.
  - intros region rest s1 acc1 [Ha Hb].
    eapply wp_mono; [|apply load_region; exact Ha].
    intros s2 acc2 [Ha2 Hb2]. cbv beta. split; [exact Ha2|rewrite Hb2; exact Hb].
  - intros s1 acc1 [Ha Hb].
    eapply wp_mono;
      [|apply wp_frame with (q := fun c =>
          match c with
          | NpGenfromtxt _ _ | AnovaRMFit _ _ _ _ | Print _ | OsPathExists _
          | OsMakedirs _ | OsRemove _ | OpenW _ | FileWrite _ _ | FileClose _ => true
          | _ => false
          end)].
    + intros s2 [] ->. rewrite Ha, Hb. split; [exact Hlen|discriminate].
    + unfold Script.anova_section, Script.read_similiarities. calls_tac.
    + intros cc Hq; destruct cc; try discriminate Hq; exact I.
    + intros cc xx Hq; destruct cc; try discriminate Hq; reflexivity.
Qed.

End LoadFacts.

Lemma load_run {W} (h : handler W) w u1 u2 :
  let tr := trace_of h (Script.script u1 u2) w in
  at_every_call Load.step Load.ok Load.start tr /\
  (outcome_of h (Script.script u1 u2) w = Done tt ->
   List.length (Load.blocks (summary Load.step Load.start tr)) = 10 /\
   Load.averaged (summary Load.step Load.start tr) <> None).
Proof.
  intro tr.
  destruct (@wp_sound _ Load.step Load.ok Load.no_assumption _ _ h
              (Script.script u1 u2) w _ _ (load_pipeline true u1 u2)
              (assumed_trivial _ _ _)) as [Hcalls Hdone].
  split; [exact Hcalls|]. intro Ho. exact (Hdone tt Ho).
Qed.

(** X1.  In every run the data of the ten subjects are requested in order,
    each from /Volumes/INTENSO/data/sub-<subject>/1st_level_good_bad_Imag
    with the six runs and the condition lists; [average_over_runs] is handed
    exactly the ten blocks that came back, in that order, and nothing of what
    [np.empty] left in the array; every region is cut out of the one averaged
    array with the mask fetched for that region; and [create_rsa_datasets]
    gets that cut, the number 10 and the key 'conditions'. *)
Theorem X1_loaded_blocks_reach_the_reduction :
  forall W (h : handler W) w u1 u2,
    at_every_call Load.step Load.ok Load.start
      (trace_of h (Script.script u1 u2) w).
Proof.
  intros W h w u1 u2. exact (proj1 (load_run h w u1 u2)).
Qed.

Lemma X1_witness :
  Load.ok
    (summary Load.step Load.start
       (firstn 10 (trace_of Model.lib
                     (Script.script Model.uninit_data Model.uninit_sim) Model.world0)))
    (AverageOverRuns (map Array (seq 0 10))).
Proof.
  exact (X1_loaded_blocks_reach_the_reduction Model.lib Model.world0
           Model.uninit_data Model.uninit_sim
           (firstn 10 (trace_of Model.lib
                         (Script.script Model.uninit_data Model.uninit_sim)
                         Model.world0))
           (AverageOverRuns (map Array (seq 0 10))) (Array 10)
           (skipn 11 (trace_of Model.lib
                        (Script.script Model.uninit_data Model.uninit_sim)
                        Model.world0))
           ltac:(vm_compute; reflexivity)).
Defined.

(** *** Directory and file handling *)

Section FilesFacts.

#[local] Abbreviation xwp := (wp Files.step Files.ok Files.no_assumption).

Ltac files_simpl :=
  cbn [Files.step Files.checked Files.made Files.removed Files.opened
       Files.written Files.closed].

Ltac files_ok :=
  cbn [Files.ok Files.checked Files.made Files.removed Files.opened
       Files.written Files.closed];
  repeat match goal with
         | |- _ /\ _ => split
         | |- exists _, _ => eexists
         end;
  first [ reflexivity | exact I | left; reflexivity | right; simpl; auto ].

Ltac files_do := apply wp_do_bind; [files_ok | intros ? _; files_simpl].

Lemma files_quiet {A} (p : Prog A) :
  all_calls Files.not_os_call p ->
  xwp p Files.start (fun s _ => s = Files.start).
Proof.
  intro Hp. apply wp_frame with (q := Files.not_os_call); auto.
  - intros c Hq; destruct c; try discriminate Hq; exact I.
  - intros c x Hq; destruct c; try discriminate Hq; reflexivity.
Qed.

Lemma files_pipeline b u1 u2 :
  xwp (Script.pipeline b u1 u2) Files.start
      (fun s _ => exists f,
         Files.opened s = [(f, "../analysis/anova/similiarities_anova.txt")] /\
         Files.written s = [f] /\ Files.closed s = [f]).
Proof.
  unfold Script.pipeline.
  apply wp_bind. eapply wp_mono; [|apply files_quiet].
  2:{ unfold Script.format_data. calls_tac. }
  intros s0 fd ->. apply wp_bind. eapply wp_mono; [|apply files_quiet; calls_tac].
  intros s1 avg ->. apply wp_bind. eapply wp_mono; [|apply files_quiet].
  2:{ apply all_calls_for_fold. intros.
      unfold Script.region_body, Script.select_conditions, Script.mahalanobis_block,
        Script.mahalanobis_for_subject, Script.compare_rdms,
        Script.similiarity_for_subject, Script.test_significance,
        Script.save_rdms, Script.matrix_of, Script.save_rsa.
      calls_tac. }
  intros s2 _ ->. unfold Script.anova_section.
  apply wp_bind. eapply wp_mono; [|apply files_quiet].
  2:{ unfold Script.read_similiarities. calls_tac. }
  intros s3 vals ->. unfold Files.start.
  files_do. files_do.
  apply wp_do_bind; [files_ok|intros e1 _; files_simpl].
  destruct e1; cbn [Bool.eqb].
  - cbn [bind].
    apply wp_do_bind; [files_ok|intros e2 _; files_simpl].
    destruct e2; cbn [Bool.eqb].
    + files_do. files_do. files_do.
      apply wp_perform; [files_ok|intros [] _; files_simpl].
      eexists. repeat split.
    + cbn [bind]. files_do. files_do.
      apply wp_perform; [files_ok|intros [] _; files_simpl].
      eexists. repeat split.
  - files_do.
    apply wp_do_bind; [files_ok|intros e2 _; files_simpl].
    destruct e2; cbn [Bool.eqb].
    + files_do. files_do. files_do.
      apply wp_perform; [files_ok|intros [] _; files_simpl].
      eexists. repeat split.
    + cbn [bind]. files_do. files_do.
      apply wp_perform; [files_ok|intros [] _; files_simpl].
      eexists. repeat split.
Qed.

End FilesFacts.

(** X2.  In every run the script creates the anova directory only after
    [os.path.exists] said it is missing and removes the result file only
    after [os.path.exists] said it is there; it opens
    ../analysis/anova/similiarities_anova.txt only when the directory is
    known to exist or was just created and the file is known to be absent or
    was just removed; it writes to and closes the file it opened, once each.
    A run that reaches the end has opened exactly this one file, written to
    it and closed it. *)
Theorem X2_anova_file_is_created_afresh_and_closed :
  forall W (h : handler W) w u1 u2,
    let tr := trace_of h (Script.script u1 u2) w in
    at_every_call Files.step Files.ok Files.start tr /\
    (outcome_of h (Script.script u1 u2) w = Done tt ->
     exists f,
       Files.opened (Files.after tr) =
         [(f, "../analysis/anova/similiarities_anova.txt")] /\
       Files.written (Files.after tr) = [f] /\
       Files.closed (Files.after tr) = [f]).
Proof.
  intros W h w u1 u2 tr.
  destruct (@wp_sound _ Files.step Files.ok Files.no_assumption _ _ h
              (Script.script u1 u2) w _ _ (files_pipeline true u1 u2)
              (assumed_trivial _ _ _)) as [Hcalls Hdone].
  split; [exact Hcalls|]. intro Ho. exact (Hdone tt Ho).
Qed.

Lemma X2_witness :
  let tr := trace_of Model.lib (Script.script Model.uninit_data Model.uninit_sim)
              Model.world0 in
  Files.ok (Files.after (firstn 991 tr))
    (OpenW "../analysis/anova/similiarities_anova.txt") /\
  exists f,
    Files.opened (Files.after tr) = [(f, "../analysis/anova/similiarities_anova.txt")] /\
    Files.written (Files.after tr) = [f] /\
    Files.closed (Files.after tr) = [f].
Proof.
  intro tr.
  destruct (X2_anova_file_is_created_afresh_and_closed Model.lib Model.world0
              Model.uninit_data Model.uninit_sim) as [H Hdone].
  split.
  - exact (H (firstn 991 tr) (OpenW "../analysis/anova/similiarities_anova.txt")
             (FileHandle 286) (skipn 992 tr) ltac:(vm_compute; reflexivity)).
  - exact (Hdone ltac:(vm_compute; reflexivity)).
Defined.

(** *** Answers the script cannot go on with *)

Lemma select_lengths D :
  all_results (fun acc : list Dataset * list Dataset =>
                 List.length (fst acc) = List.length D /\
                 List.length (snd acc) = List.length D)
              (Script.select_conditions D).
Proof.
  unfold Script.select_conditions.
  eapply all_results_mono;
    [|apply all_results_for_fold with
        (inv := fun (rest : list Dataset) (acc : list Dataset * list Dataset) =>
                  List.length (fst acc) + List.length rest = List.length D /\
                  List.length (snd acc) + List.length rest = List.length D)].
  - intros acc [H1 H2]. simpl in *. lia.
  - simpl. auto.
  - intros dataset rest [stim imag] [H1 H2]. simpl. intros s i.
    rewrite !length_app. simpl in *. lia.
Qed.

Lemma mahalanobis_needs_ten m stim :
  all_results (fun _ => 10 <= List.length stim) (Script.mahalanobis_block m stim).
Proof.
  unfold Script.mahalanobis_block.
  eapply all_results_mono;
    [|apply all_results_for_fold with
        (inv := fun (rest : list string) (_ : list RDMs) =>
                  exists k, rest = skipn k Script.subjects /\ k <= List.length stim)].
  - intros acc [k [Hrest Hk]].
    assert (Hlen : List.length (skipn k Script.subjects) = 0) by (rewrite <- Hrest; reflexivity).
    rewrite length_skipn in Hlen.
    change (List.length Script.subjects) with 10 in Hlen. lia.
  - exists 0. split; [reflexivity|lia].
  - intros subject rest acc [k [Hrest Hk]].
    symmetry in Hrest. destruct (subjects_numbered _ Hrest) as [Hint [Hnth Hrest']].
    unfold Script.mahalanobis_for_subject. simpl. intros img data idx rows stacked noise.
    rewrite Hint. cbn [bind].
    replace (Z.of_nat k + 1 - 1)%Z with (Z.of_nat k) by lia.
    apply all_results_bind with (Q := fun _ : RDMs => k < List.length stim).
    + apply all_results_bind with (Q := fun a => nth_error stim k = Some a);
        [apply all_results_getitem_nat|].
      intros dataset Hds. simpl. intro rdm. apply nth_error_Some. congruence.
    + intros rdm Hlt. simpl. exists (S k). split; [exact Hrest'|exact Hlt].
Qed.

Lemma length_removelast_pred {A} (l : list A) :
  List.length (removelast l) = List.length l - 1.
Proof.
  induction l as [|x [|y l] IH]; simpl in *; auto. rewrite IH. lia.
Qed.

Lemma wp_assign_slice {S} (step : S -> entry -> S) ok asm {A} (a : list A) lo hi v s
    (post : S -> list A -> Prop) :
  (List.length v = hi - lo \/ (exists x, v = [x]) -> forall r, post s r) ->
  wp step ok asm (assign_slice a lo hi v) s post.
Proof.
  intro H. unfold assign_slice.
  destruct (Nat.eqb (List.length v) (hi - lo)) eqn:Hlen.
  - apply Nat.eqb_eq in Hlen. simpl. apply H. left; exact Hlen.
  - destruct v as [|x [|y v']]; simpl; auto. apply H. right. exists x. reflexivity.
Qed.

Section NeedsFacts.

#[local] Abbreviation nwp := (wp seen_malformed anything any_answer).

Ltac needs_do :=
  apply wp_do_bind;
  [exact I | intros ? _; unfold seen_malformed; cbn [malformed orb]; rewrite ?orb_false_r].

Lemma needs_frame {A} (p : Prog A) s0 :
  all_calls well_formed_call p -> nwp p s0 (fun s _ => s = s0).
Proof.
  intro Hp. apply wp_frame with (q := well_formed_call); auto.
  - intros c Hq. exact I.
  - intros c x Hq. unfold seen_malformed.
    destruct c; try discriminate Hq; apply orb_false_r.
Qed.

Lemma needs_compare a b :
  nwp (Script.compare_rdms a b) false (fun s _ => s = false).
Proof.
  unfold Script.compare_rdms.
  apply wp_for_fold with
    (inv := fun (_ : list string) (s : bool) (_ : list pyfloat) => s = false); auto.
  intros subject rest s acc ->.
  apply wp_bind. unfold Script.similiarity_for_subject.
  apply wp_pure_bind; [apply all_calls_py_int|intro n1]. needs_do.
  apply wp_pure_bind; [apply all_calls_py_int|intro n2]. needs_do.
  apply wp_do_bind; [exact I|intros similiarity _].
  change 0%Z with (Z.of_nat 0).
  apply wp_getitem_nat. intros row Hrow.
  apply wp_getitem_nat_end. intros v Hv.
  destruct similiarity as [|row' rows]; [discriminate Hrow|].
  simpl in Hrow; inversion Hrow; subst row'.
  destruct row as [|v' row]; [discriminate Hv|].
  reflexivity.
Qed.

Lemma needs_region avg acc region :
  nwp (Script.region_body true avg acc region) false (fun s _ => s = false).
Proof.
  unfold Script.region_body.
  needs_do. needs_do.
  apply wp_do_bind; [exact I|intros D _; unfold seen_malformed; cbn [malformed orb]].
  apply wp_bind. eapply wp_mono;
    [|apply wp_results with (Q := fun acc : list Dataset * list Dataset =>
                                List.length (fst acc) = List.length D /\
                                List.length (snd acc) = List.length D);
      [apply select_lengths|apply needs_frame]].
  2:{ unfold Script.select_conditions. calls_tac. }
  intros s1 [stim imag] [-> [Hs Hi]]. cbn [fst snd] in *.
  needs_do. needs_do. needs_do.
  apply wp_bind.
  eapply wp_mono;
    [|apply wp_results with (Q := fun _ : unit => 10 <= List.length stim);
      [|apply needs_frame]].
  2:{ eapply all_results_bind; [apply mahalanobis_needs_ten|]. intros ? H; exact H. }
  2:{ unfold Script.mahalanobis_block, Script.mahalanobis_for_subject. calls_tac. }
  intros s2 [] [-> Hten].
  assert (Hok : Nat.ltb (List.length D) 10 = false) by (apply Nat.ltb_ge; lia).
  rewrite Hok.
  apply wp_bind. eapply wp_mono; [|apply needs_compare].
  intros s3 similiarities ->.
  eapply wp_mono; [|apply needs_frame].
  - intros s4 _ ->. reflexivity.
  - unfold Script.test_significance, Script.save_rdms, Script.matrix_of, Script.save_rsa.
    calls_tac.
Qed.

Lemma needs_read u :
  nwp (Script.read_similiarities u) false (fun s _ => s = false).
Proof.
  unfold Script.read_similiarities.
  apply wp_for_fold with
    (inv := fun (_ : list (nat * string)) (s : bool) (_ : list pyfloat) => s = false); auto.
  intros [index region] rest s acc ->.
  apply wp_do_bind; [exact I|intros parsed _; unfold seen_malformed; cbn [malformed orb]].
  apply wp_assign_slice. intros Hlen r.
  rewrite length_removelast_pred in Hlen.
  replace (index * List.length Script.subjects + List.length Script.subjects
           - index * List.length Script.subjects) with 10 in Hlen
    by (change (List.length Script.subjects) with 10; lia).
  apply Bool.negb_false_iff, Bool.orb_true_iff.
  destruct Hlen as [Hlen|[x Hx]].
  - left. apply Nat.eqb_eq. lia.
  - right. apply Nat.eqb_eq.
    assert (H1 : List.length (removelast parsed) = 1) by (rewrite Hx; reflexivity).
    rewrite length_removelast_pred in H1.
    destruct parsed as [|p0 [|p1 [|p2 parsed]]]; simpl in *; try discriminate; try lia.
Qed.

Lemma needs_pipeline u1 u2 :
  nwp (Script.pipeline true u1 u2) false (fun s _ => s = false).
Proof.
  unfold Script.pipeline.
  apply wp_bind. eapply wp_mono; [|apply needs_frame].
  2:{ unfold Script.format_data. calls_tac. }
  intros s0 fd ->. needs_do.
  apply wp_bind.
  apply wp_for_fold with
    (inv := fun (_ : list string) (s : bool) (_ : Script.rdm_lists) => s = false); auto.
  - intros region rest s acc ->. apply needs_region.
  - intros s acc ->. unfold Script.anova_section.
    apply wp_bind. eapply wp_mono; [|apply needs_read].
    intros s1 vals ->.
    eapply wp_mono; [|apply needs_frame].
    + intros s2 [] ->; reflexivity.
    + calls_tac.
Qed.

End NeedsFacts.

Lemma seen_malformed_existsb tr s :
  summary seen_malformed s tr = s || existsb malformed tr.
Proof.
  unfold summary. revert s; induction tr as [|e tr IH]; intro s; simpl.
  - rewrite orb_false_r; reflexivity.
  - rewrite IH. unfold seen_malformed. rewrite orb_assoc. reflexivity.
Qed.



(** *** The data frame of the ANOVA *)

Lemma slice_value_length v :
  List.length v = 10 \/ (exists x, v = [x]) ->
  List.length (Frame.slice_value 10 v) = 10.
Proof.
  unfold Frame.slice_value. intros [H|[x ->]].
  - rewrite H. simpl. exact H.
  - reflexivity.
Qed.

Lemma wp_assign_slice_filled {S} (step : S -> entry -> S) ok asm
    (filled g v : list pyfloat) k s (post : S -> list pyfloat -> Prop) :
  List.length filled = k * List.length Script.subjects ->
  10 <= List.length g ->
  (List.length v = 10 \/ (exists x, v = [x]) ->
   post s ((filled ++ Frame.slice_value 10 v) ++ skipn 10 g)%list) ->
  wp step ok asm
     (assign_slice (filled ++ g) (k * List.length Script.subjects)
        (k * List.length Script.subjects + List.length Script.subjects) v) s post.
Proof.
  intros Hf Hg H.
  destruct (Nat.eqb (List.length v) 10) eqn:Hlen.
  - apply Nat.eqb_eq in Hlen.
    rewrite assign_slice_filled by assumption. simpl.
    unfold Frame.slice_value in H. rewrite Hlen in H. apply H. left; reflexivity.
  - unfold assign_slice.
    change (List.length Script.subjects) with 10 in *.
    replace (k * 10 + 10 - k * 10) with 10 by lia. rewrite Hlen.
    destruct v as [|x [|y v']]; simpl; auto.
    unfold Frame.slice_value in H. simpl in H.
    rewrite firstn_app, <- Hf, Nat.sub_diag, firstn_all. cbn [firstn].
    rewrite app_nil_r, skipn_app, skipn_all2 by lia.
    replace (List.length filled + 10 - List.length filled) with 10 by lia.
    cbn [app]. rewrite <- app_assoc in H. apply H. right. exists x. reflexivity.
Qed.

Lemma nth_error_block (blocks : list (list pyfloat)) r j b :
  Forall (fun b => List.length b = 10) blocks ->
  nth_error blocks r = Some b -> j < 10 ->
  nth_error (List.concat blocks) (r * 10 + j) = nth_error b j.
Proof.
  intros Hall; revert r; induction Hall as [|b0 blocks Hb0 Hall IH]; intros r Hr Hj.
  - destruct r; discriminate Hr.
  - destruct r as [|r]; cbn [List.concat] in *.
    + simpl in Hr. inversion Hr; subst. simpl. apply nth_error_app1. lia.
    + simpl in Hr.
      replace (S r * 10 + j) with (List.length b0 + (r * 10 + j)) by (simpl; lia).
      rewrite nth_error_app2 by lia.
      replace (List.length b0 + (r * 10 + j) - List.length b0) with (r * 10 + j) by lia.
      apply IH; assumption.
Qed.

Section FrameFacts.

#[local] Abbreviation awp := (wp Frame.step Frame.ok Frame.no_assumption).

Ltac frame_side :=
  repeat rewrite ?length_app, ?length_skipn;
  repeat match goal with
         | H : List.length (Frame.slice_value 10 ?v) = 10
           |- context [List.length (Frame.slice_value 10 ?v)] => rewrite H
         end;
  unfold np_empty; rewrite ?length_map, ?length_seq;
  change (List.length Script.subjects) with 10; cbn [List.length]; lia.

Ltac frame_iter :=
  apply wp_bind; apply wp_do_bind;
  [ split; exact I
  | let parsed := fresh "parsed" in
    let Hl := fresh "Hl" in
    intros parsed _; cbn [Frame.step];
    apply wp_assign_slice_filled; [frame_side | frame_side |];
    intro Hl; apply slice_value_length in Hl; cbn [wp] ].

Lemma frame_read u :
  awp (Script.read_similiarities u) []
      (fun s all =>
         List.length s = 5 /\
         all = List.concat (map Frame.slice_of s) /\
         Forall (fun b => List.length b = 10) (map Frame.slice_of s)).
Proof.
  unfold Script.read_similiarities, enumerate, Script.regions_of_interest.
  cbn [List.length seq combine for_fold].
  match goal with
  | |- context [assign_slice (np_empty u ?n)] =>
      change (np_empty u n) with (([] : list pyfloat) ++ np_empty u n)%list
  end.
  frame_iter. frame_iter. frame_iter. frame_iter. frame_iter.
  cbn [app List.length map List.concat]. repeat split.
  - match goal with
    | |- (_ ++ ?g)%list = _ => replace g with (@nil pyfloat) by reflexivity
    end.
    rewrite !app_nil_r, <- !app_assoc. reflexivity.
  - repeat constructor; assumption.
Qed.

Lemma frame_quiet {A} (p : Prog A) s0 :
  all_calls Frame.not_read p -> awp p s0 (fun s _ => s = s0).
Proof.
  intro Hp. apply wp_frame with (q := Frame.not_read); auto.
  - intros c Hq; destruct c; try discriminate Hq; split; exact I.
  - intros c x Hq; destruct c; try discriminate Hq; reflexivity.
Qed.

Lemma frame_labels r j :
  r < 5 -> j < 10 ->
  nth_error (np_repeat [1; 2; 3; 4; 5]%Z 10) (r * 10 + j) = Some (Z.of_nat r + 1)%Z /\
  nth_error (np_tile (map Z.of_nat (py_range 1 11)) 5) (r * 10 + j)
    = Some (Z.of_nat j + 1)%Z.
Proof.
  intros Hr Hj.
  do 5 (destruct r as [|r];
        [do 10 (destruct j as [|j]; [split; reflexivity|]); lia|]).
  lia.
Qed.

Lemma frame_pipeline b u1 u2 :
  awp (Script.pipeline b u1 u2) [] (fun s _ => List.length s = 5).
Proof.
  unfold Script.pipeline.
  apply wp_bind. eapply wp_mono; [|apply frame_quiet].
  2:{ unfold Script.format_data. calls_tac. }
  intros s0 fd ->. apply wp_bind. eapply wp_mono; [|apply frame_quiet; calls_tac].
  intros s1 avg ->. apply wp_bind. eapply wp_mono; [|apply frame_quiet].
  2:{ apply all_calls_for_fold. intros.
      unfold Script.region_body, Script.select_conditions, Script.mahalanobis_block,
        Script.mahalanobis_for_subject, Script.compare_rdms,
        Script.similiarity_for_subject, Script.test_significance,
        Script.save_rdms, Script.matrix_of, Script.save_rsa.
      calls_tac. }
  intros s2 _ ->. unfold Script.anova_section.
  apply wp_bind. eapply wp_mono; [|apply frame_read].
  intros s all [Hlen [-> Hall]].
  apply wp_do_bind.
  { split; cbn [Frame.values_ok Frame.rows_ok col_Similiarity col_Subject col_ROIs].
    - repeat split; auto.
      destruct s as [|p1 [|p2 [|p3 [|p4 [|p5 [|p6 s]]]]]]; try discriminate Hlen.
      cbn [map List.concat] in *.
      repeat match goal with
             | H : Forall _ (_ :: _) |- _ => inversion H; clear H; subst
             end.
      rewrite !length_app. cbn [List.length]. lia.
    - intros r j Hr Hj.
      destruct (frame_labels Hr Hj) as [HR HS].
      split; [exact HR|]. split; [exact HS|].
      destruct (nth_error s r) as [parsed|] eqn:Hp.
      + exists parsed. split; [reflexivity|].
        apply nth_error_block; auto.
        rewrite nth_error_map, Hp. reflexivity.
      + apply nth_error_None in Hp. lia. }
  intros anova_results _. cbn [Frame.step].
  eapply wp_mono; [|apply frame_quiet; calls_tac].
  intros s' [] ->. exact Hlen.
Qed.

End FrameFacts.

Lemma frame_run {W} (h : handler W) w u1 u2 :
  at_every_call Frame.step Frame.ok [] (trace_of h (Script.script u1 u2) w).
Proof.
  exact (proj1 (@wp_sound _ Frame.step Frame.ok Frame.no_assumption _ _ h
                  (Script.script u1 u2) w _ _ (frame_pipeline true u1 u2)
                  (assumed_trivial _ _ _))).
Qed.


(** X5.  Whenever the ANOVA is fitted, row r*10+j of the data frame (r < 5,
    j < 10) carries ROI r+1, Subject j+1 and the j-th value of the slice of
    the r-th parsed file: the labels match the layout in which the regions'
    values were stored. *)
Theorem X5_rows_pair_labels_with_values :
  forall W (h : handler W) w u1 u2,
    at_every_call Frame.step Frame.rows_ok []
      (trace_of h (Script.script u1 u2) w).
Proof.
  intros W h w u1 u2.
  eapply at_every_call_weaken; [|apply frame_run]. intros s c Hok; apply Hok.
Qed.


Lemma X5_witness :
  let tr := trace_of Model.lib (Script.script Model.uninit_data Model.uninit_sim)
              Model.world0 in
  Frame.rows_ok (summary Frame.step [] (firstn 986 tr))
    (AnovaRMFit
       (mkDataFrame
          (np_tile (map Z.of_nat (py_range 1 11)) 5)
          (np_repeat [1; 2; 3; 4; 5]%Z 10)
          (flat_map (fun i => map (fun j => Float64 (N.of_nat (93 + 110 * i + 4 * j)))
                                  (seq 0 10))
                    (seq 0 5)))
       "Similiarity" "Subject" ["ROIs"]).
Proof.
  intro tr.
  exact (X5_rows_pair_labels_with_values Model.lib Model.world0
           Model.uninit_data Model.uninit_sim
           (firstn 986 tr)
           (AnovaRMFit
              (mkDataFrame
                 (np_tile (map Z.of_nat (py_range 1 11)) 5)
                 (np_repeat [1; 2; 3; 4; 5]%Z 10)
                 (flat_map (fun i => map (fun j => Float64 (N.of_nat (93 + 110 * i + 4 * j)))
                                         (seq 0 10))
                           (seq 0 5)))
              "Similiarity" "Subject" ["ROIs"])
           (AnovaObj 286) (skipn 987 tr)
           ltac:(vm_compute; reflexivity)).
Defined.

(** *** Saving the RDMs of a region *)

Section SavesFacts.

#[local] Abbreviation vwp := (wp Saves.step Saves.ok Saves.no_assumption).

Ltac saves_simpl :=
  cbn [Saves.step Saves.region Saves.rdms Saves.matrices Saves.count app].

Lemma saves_quiet {A} (p : Prog A) s0 :
  all_calls Saves.not_saving p -> vwp p s0 (fun s _ => s = s0).
Proof.
  intro Hp. apply wp_frame with (q := Saves.not_saving); auto.
  - intros c Hq; destruct c; try discriminate Hq; exact I.
  - intros c x Hq; destruct c; try discriminate Hq; reflexivity.
Qed.

Lemma saves_matrix region rdms n rdm subject k :
  py_int subject = Ret (Z.of_nat k + 1)%Z ->
  vwp (Script.matrix_of rdm subject) (Saves.mkSaves (Some region) rdms None n)
      (fun s m => exists ms,
         s = Saves.mkSaves (Some region) rdms (Some (rdm, ms)) n /\
         nth_error ms k = Some m).
Proof.
  intro Hint. unfold Script.matrix_of.
  apply wp_do_bind; [exact I|intros ms _; saves_simpl].
  rewrite Hint. cbn [bind].
  replace (Z.of_nat k + 1 - 1)%Z with (Z.of_nat k) by lia.
  apply wp_getitem_nat_end. intros matrix Hm. exists ms. split; [reflexivity|exact Hm].
Qed.

Lemma saves_ok region a b c k i rdm ms subject condition matrix :
  nth_error [a; b; c] i = Some rdm ->
  nth_error ["stimulation"; "imagery"; "all"] i = Some condition ->
  i < 3 ->
  nth_error Script.subjects k = Some subject ->
  py_int subject = Ret (Z.of_nat k + 1)%Z ->
  nth_error ms k = Some matrix ->
  Saves.ok (Saves.mkSaves (Some region) [a; b; c] (Some (rdm, ms)) (3 * k + i))
    (SaveRdmResults Script.resultpath region condition "euclidean" matrix subject).
Proof.
  intros Hrdm Hcond Hi Hsubj Hint Hm.
  assert (Hmod : (3 * k + i) mod 3 = i).
  { rewrite Nat.add_comm, (Nat.mul_comm 3 k), Nat.Div0.mod_add.
    apply Nat.mod_small; exact Hi. }
  assert (Hdiv : (3 * k + i) / 3 = k).
  { rewrite Nat.add_comm, (Nat.mul_comm 3 k), Nat.div_add by lia.
    rewrite Nat.div_small by exact Hi. reflexivity. }
  cbn [Saves.ok Saves.region Saves.rdms Saves.matrices Saves.count].
  rewrite Hmod, Hdiv. repeat split; auto.
  exists rdm, ms, (Z.of_nat k + 1)%Z. repeat split; auto.
  replace (Z.to_nat (Z.of_nat k + 1 - 1)) with k by lia. exact Hm.
Qed.

Lemma saves_loop region a b c :
  vwp (Script.save_rdms region a b c) (Saves.mkSaves (Some region) [a; b; c] None 0)
      (fun s _ => s = Saves.mkSaves (Some region) [a; b; c] None 30).
Proof.
  unfold Script.save_rdms.
  apply wp_for_fold with
    (inv := fun (rest : list string) s (_ : unit) =>
              exists k, k <= 10 /\ rest = skipn k Script.subjects /\
                s = Saves.mkSaves (Some region) [a; b; c] None (3 * k)).
  - exists 0. repeat split; auto. lia.
  - intros subject rest s [] [k [Hk [Hrest ->]]].
    symmetry in Hrest. destruct (subjects_numbered _ Hrest) as [Hint [Hnth Hrest']].
    apply wp_bind. eapply wp_mono; [|apply saves_matrix; exact Hint].
    intros s1 m1 [ms1 [-> Hm1]].
    apply wp_do_bind.
    { replace (3 * k) with (3 * k + 0) by lia.
      apply saves_ok with (rdm := a) (ms := ms1); auto. }
    intros [] _. saves_simpl.
    apply wp_bind. eapply wp_mono; [|apply saves_matrix; exact Hint].
    intros s2 m2 [ms2 [-> Hm2]].
    apply wp_do_bind.
    { replace (S (3 * k)) with (3 * k + 1) by lia.
      apply saves_ok with (rdm := b) (ms := ms2); auto. }
    intros [] _. saves_simpl.
    apply wp_bind. eapply wp_mono; [|apply saves_matrix; exact Hint].
    intros s3 m3 [ms3 [-> Hm3]].
    apply wp_perform.
    { replace (S (S (3 * k))) with (3 * k + 2) by lia.
      apply saves_ok with (rdm := c) (ms := ms3); auto. }
    intros [] _. saves_simpl.
    assert (Hlt : k < 10).
    { change 10 with (List.length Script.subjects). apply nth_error_Some. congruence. }
    exists (S k). repeat split; auto. f_equal. lia.
  - intros s [] [k [Hk [Hrest ->]]].
    assert (Hlen : List.length (skipn k Script.subjects) = 0) by (rewrite <- Hrest; reflexivity).
    rewrite length_skipn in Hlen.
    change (List.length Script.subjects) with 10 in Hlen.
    assert (k = 10) by lia. subst k. reflexivity.
Qed.

Lemma saves_region b avg acc region s :
  vwp (Script.region_body b avg acc region) s (fun s' _ => Saves.count s' = 30).
Proof.
  unfold Script.region_body.
  apply wp_do_bind; [exact I|intros m _; saves_simpl].
  apply wp_bind. eapply wp_mono; [|apply saves_quiet; calls_tac].
  intros s1 d ->.
  apply wp_bind. eapply wp_mono; [|apply saves_quiet; calls_tac].
  intros s2 D ->.
  apply wp_bind. eapply wp_mono; [|apply saves_quiet].
  2:{ unfold Script.select_conditions. calls_tac. }
  intros s3 [stim imag] ->.
  apply wp_do_bind; [exact I|intros ra _; saves_simpl].
  apply wp_do_bind; [exact I|intros rb _; saves_simpl].
  apply wp_do_bind; [exact I|intros rc _; saves_simpl].
  apply wp_bind. eapply wp_mono; [|apply saves_quiet].
  2:{ destruct b; [|calls_tac].
      unfold Script.mahalanobis_block, Script.mahalanobis_for_subject. calls_tac. }
  intros s4 _ ->.
  apply wp_bind. eapply wp_mono; [|apply saves_quiet].
  2:{ unfold Script.compare_rdms, Script.similiarity_for_subject. calls_tac. }
  intros s5 sims ->.
  apply wp_bind. eapply wp_mono; [|apply saves_quiet].
  2:{ unfold Script.test_significance. calls_tac. }
  intros s6 report ->.
  apply wp_bind. eapply wp_mono; [|apply saves_loop].
  intros s7 _ ->.
  eapply wp_mono; [|apply saves_quiet].
  - intros s8 _ ->. reflexivity.
  - unfold Script.save_rsa. calls_tac.
Qed.

Lemma saves_pipeline b u1 u2 :
  vwp (Script.pipeline b u1 u2) Saves.start (fun s _ => Saves.count s = 30).
Proof.
  unfold Script.pipeline.
  apply wp_bind. eapply wp_mono; [|apply saves_quiet].
  2:{ unfold Script.format_data. calls_tac. }
  intros s0 fd ->. apply wp_bind. eapply wp_mono; [|apply saves_quiet; calls_tac].
  intros s1 avg ->. apply wp_bind.
  unfold Script.regions_of_interest. cbn [for_fold].
  apply wp_bind; eapply wp_mono; [|apply saves_region]. intros s2 acc2 _.
  apply wp_bind; eapply wp_mono; [|apply saves_region]. intros s3 acc3 _.
  apply wp_bind; eapply wp_mono; [|apply saves_region]. intros s4 acc4 _.
  apply wp_bind; eapply wp_mono; [|apply saves_region]. intros s5 acc5 _.
  apply wp_bind; eapply wp_mono; [|apply saves_region]. intros s6 acc6 H6.
  cbn [wp].
  eapply wp_mono; [|apply saves_quiet].
  - intros s7 [] ->. exact H6.
  - unfold Script.anova_section, Script.read_similiarities. calls_tac.
Qed.

End SavesFacts.

(** X6.  In every run, the n-th [save_rdm_results] call of a region (counted
    from 0) is for that region, with method 'euclidean', for subject n/3 of
    the list, and under the name 'stimulation', 'imagery' or 'all' according
    to n mod 3; the matrix it saves is entry int(subject)-1 of what
    [get_matrices] just returned for the first, second or third RDM computed
    in the region, respectively.  A run that reaches the end has made thirty
    such calls in the last region. *)
Theorem X6_saved_matrices_come_from_the_named_rdm :
  forall W (h : handler W) w u1 u2,
    let tr := trace_of h (Script.script u1 u2) w in
    at_every_call Saves.step Saves.ok Saves.start tr /\
    (outcome_of h (Script.script u1 u2) w = Done tt ->
     Saves.count (Saves.after tr) = 3 * List.length Script.subjects).
Proof.
  intros W h w u1 u2 tr.
  destruct (@wp_sound _ Saves.step Saves.ok Saves.no_assumption _ _ h
              (Script.script u1 u2) w _ _ (saves_pipeline true u1 u2)
              (assumed_trivial _ _ _)) as [Hcalls Hdone].
  split; [exact Hcalls|]. intro Ho. exact (Hdone tt Ho).
Qed.

Lemma X6_witness :
  let tr := trace_of Model.lib (Script.script Model.uninit_data Model.uninit_sim)
              Model.world0 in
  Saves.ok (Saves.after (firstn 144 tr))
    (SaveRdmResults "../analysis/" "rPSC_2" "stimulation" "euclidean" (Array 66) "001") /\
  Saves.count (Saves.after tr) = 30.
Proof.
  intro tr.
  destruct (X6_saved_matrices_come_from_the_named_rdm Model.lib Model.world0
              Model.uninit_data Model.uninit_sim) as [H Hdone].
  split.
  - exact (H (firstn 144 tr)
             (SaveRdmResults "../analysis/" "rPSC_2" "stimulation" "euclidean"
                (Array 66) "001")
             tt (skipn 145 tr) ltac:(vm_compute; reflexivity)).
  - exact (Hdone ltac:(vm_compute; reflexivity)).
Defined.

(** *** The report of the t-test *)

Section ReportFacts.

#[local] Abbreviation rwp := (wp Report.step Report.ok Report.no_assumption).

Ltac report_simpl :=
  cbn [Report.step Report.region Report.test Report.mean Report.strings
       Report.line app].

Lemma report_quiet {A} (p : Prog A) s0 :
  all_calls Report.not_reporting p -> rwp p s0 (fun s _ => s = s0).
Proof.
  intro Hp. apply wp_frame with (q := Report.not_reporting); auto.
  - intros c Hq; destruct c; try discriminate Hq; exact I.
  - intros c x Hq; destruct c; try discriminate Hq; reflexivity.
Qed.

Lemma report_test region similiarities :
  rwp (Script.test_significance region similiarities)
      (Report.mkReport (Some region) None None [] None)
      (fun s report =>
         exists t m strs,
           s = Report.mkReport (Some region) t m strs
                 (Some ("The average similarity of stimulation and imagery RDMs across 10 subjects in "
                          ++ region ++ " is: " ++ report))).
Proof.
  unfold Script.test_significance.
  apply wp_do_bind; [exact I|intros res _; report_simpl].
  apply wp_bind.
  apply wp_do_bind; [exact I|intros m _; report_simpl].
  apply wp_perform; [exact I|intros mean_s _; report_simpl].
  apply wp_do_bind; [exact I|intros stat_s _; report_simpl].
  apply wp_do_bind; [exact I|intros p_s _; report_simpl].
  apply wp_do_bind.
  - cbn [Report.ok Report.region Report.test Report.mean Report.strings].
    right. exists region, similiarities, res, m, mean_s, stat_s, p_s.
    repeat split; reflexivity.
  - intros [] _. report_simpl. cbn [wp]. do 3 eexists. reflexivity.
Qed.

Lemma report_region b avg acc region s :
  rwp (Script.region_body b avg acc region) s (fun _ _ => True).
Proof.
  unfold Script.region_body.
  apply wp_do_bind; [exact I|intros m _; report_simpl].
  apply wp_bind. eapply wp_mono; [|apply report_quiet; calls_tac]. intros s1 d ->.
  apply wp_bind. eapply wp_mono; [|apply report_quiet; calls_tac]. intros s2 D ->.
  apply wp_bind. eapply wp_mono; [|apply report_quiet].
  2:{ unfold Script.select_conditions. calls_tac. }
  intros s3 [stim imag] ->.
  apply wp_bind. eapply wp_mono; [|apply report_quiet; calls_tac]. intros s4 ra ->.
  apply wp_bind. eapply wp_mono; [|apply report_quiet; calls_tac]. intros s5 rb ->.
  apply wp_bind. eapply wp_mono; [|apply report_quiet; calls_tac]. intros s6 rc ->.
  apply wp_bind. eapply wp_mono; [|apply report_quiet].
  2:{ destruct b; [|calls_tac].
      unfold Script.mahalanobis_block, Script.mahalanobis_for_subject. calls_tac. }
  intros s7 _ ->.
  apply wp_bind. eapply wp_mono; [|apply report_quiet].
  2:{ unfold Script.compare_rdms, Script.similiarity_for_subject. calls_tac. }
  intros s8 sims ->.
  apply wp_bind. eapply wp_mono; [|apply report_test].
  intros s9 report [t [mn [strs ->]]].
  apply wp_bind. eapply wp_mono; [|apply report_quiet].
  2:{ unfold Script.save_rdms, Script.matrix_of. calls_tac. }
  intros s10 _ ->. unfold Script.save_rsa.
  apply wp_bind.
  apply wp_do_bind; [exact I|intros [] _; report_simpl].
  apply wp_perform.
  - cbn [Report.ok Report.region Report.line]. repeat split; reflexivity.
  - intros [] _. exact I.
Qed.

Lemma report_pipeline b u1 u2 :
  rwp (Script.pipeline b u1 u2) Report.start (fun _ _ => True).
Proof.
  unfold Script.pipeline.
  apply wp_bind. eapply wp_mono; [|apply report_quiet].
  2:{ unfold Script.format_data. calls_tac. }
  intros s0 fd ->. apply wp_bind. eapply wp_mono; [|apply report_quiet; calls_tac].
  intros s1 avg ->. apply wp_bind.
  apply wp_for_fold with
    (inv := fun (_ : list string) (_ : Report.report) (_ : Script.rdm_lists) => True);
    auto.
  - intros region rest s acc _. apply report_region.
  - intros s acc _.
    eapply wp_mono;
      [|apply (wp_all_calls Report.step Report.ok Report.no_assumption
                 Report.anova_call (fun _ => True))]; auto.
    + intros s' c _ Hq. destruct c; try discriminate Hq; try exact I.
      left. apply String.eqb_eq. exact Hq.
    + unfold Script.anova_section, Script.read_similiarities. calls_tac.
Qed.

End ReportFacts.

(** X7.  In every run, the line printed for a region is 'The average
    similarity of stimulation and imagery RDMs across 10 subjects in
    <region> is: ' followed by the report 'corr = <mean> (T = <statistic>,
    p = <pvalue>, df = <df>)', whose numbers are the printed forms of the
    mean of the tested values and of the statistic and p-value of that
    region's t-test, and whose df is the test's; the only other line printed
    is the ANOVA sentence.  The text saved under 'ttest' for the region is
    the report of the line just printed. *)
Theorem X7_region_report_is_printed_and_saved :
  forall W (h : handler W) w u1 u2,
    at_every_call Report.step Report.ok Report.start
      (trace_of h (Script.script u1 u2) w).
Proof.
  intros W h w u1 u2.
  exact (proj1 (@wp_sound _ Report.step Report.ok Report.no_assumption _ _ h
                  (Script.script u1 u2) w _ _ (report_pipeline true u1 u2)
                  (assumed_trivial _ _ _))).
Qed.

Lemma X7_witness :
  let tr := trace_of Model.lib (Script.script Model.uninit_data Model.uninit_sim)
              Model.world0 in
  Report.ok (summary Report.step Report.start (firstn 204 tr))
    (SaveRsaResults "../analysis/" "rPSC_2" "stim_imag" "ttest"
       (Text "corr = 0.5 (T = 0.5, p = 0.5, df = 9)")).
Proof.
  intro tr.
  exact (X7_region_report_is_printed_and_saved Model.lib Model.world0
           Model.uninit_data Model.uninit_sim
           (firstn 204 tr)
           (SaveRsaResults "../analysis/" "rPSC_2" "stim_imag" "ttest"
              (Text "corr = 0.5 (T = 0.5, p = 0.5, df = 9)"))
           tt (skipn 205 tr) ltac:(vm_compute; reflexivity)).
Defined.
